(** * FinSight AI: a model of [app.py] and the properties of its pipeline

    [app.py] is a Streamlit script.  Streamlit re-executes the whole script
    from top to bottom on every user interaction; what survives between two
    executions is [st.session_state] and the stores behind [@st.cache_data].
    The development below models one execution of the script as a
    computation in a state-and-exception monad over a [World] that holds
    exactly these stores, together with the elements rendered on the page
    and a log of the calls made to the two external services (pdfplumber and
    the Gemini model).  The services themselves are parameters, gathered in
    an [Env]. *)

From Stdlib Require Import ZArith NArith String Ascii DecimalString List Lia.
From stdpp Require Import base tactics option list strings gmap fin_maps.

Set Warnings "-register-all".

(** ** Python values *)

(** The double quote and the line feed, which the string literals below
    cannot hold directly. *)
Definition dq : string := String (ascii_of_nat 34) EmptyString.
Definition nl : string := String (ascii_of_nat 10) EmptyString.

(** A Python [str] is modelled by the [string] of its UTF-8 encoding, which
    is how the literals of [app.py] are spelled below; a [bytes] object is a
    [string] as well.  [len] counts code points: the bytes that are not
    continuation bytes (of the form 10xxxxxx). *)
Definition is_continuation_byte (c : ascii) : bool :=
  match c with Ascii _ _ _ _ _ _ b6 b7 => b7 && negb b6 end.

Fixpoint len (s : string) : nat :=
  match s with
  | EmptyString => 0
  | String c rest => if is_continuation_byte c then len rest else S (len rest)
  end.

Inductive ExcClass : Type :=
| KeyError
| FileNotFoundError
| AttributeError
| TypeError
| OtherException.

(** An exception object (always derived from [Exception]): its class and
    what [str(e)] gives. *)
Record PyExc : Type := mkExc { exc_class : ExcClass; exc_str : string }.

Inductive Result (A : Type) : Type :=
| Ok (a : A)
| Err (e : PyExc).
Arguments Ok {A} a.
Arguments Err {A} e.

(** A binary64 float, as far as truth testing needs it. *)
Inductive PyFloat : Type :=
| FNaN
| FInf (negative : bool)
| FFinite (negative : bool) (mantissa : N) (exponent : Z).

(** The values [json.loads] can return, which are also the values stored in
    [st.session_state]: [None], [bool], [int], [float], [str], [list] and
    [dict] with string keys (in insertion order). *)
Inductive PyVal : Type :=
| PyNone
| PyBool (b : bool)
| PyInt (z : Z)
| PyFloatV (f : PyFloat)
| PyStr (s : string)
| PyList (l : list PyVal)
| PyDict (items : list (string * PyVal)).

Definition str_truthy (s : string) : bool :=
  match s with EmptyString => false | String _ _ => true end.

(** Python truth value testing. *)
Definition truthy (v : PyVal) : bool :=
  match v with
  | PyNone => false
  | PyBool b => b
  | PyInt z => negb (z =? 0)%Z
  | PyFloatV (FFinite _ 0%N _) => false
  | PyFloatV _ => true
  | PyStr s => str_truthy s
  | PyList l => match l with [] => false | _ :: _ => true end
  | PyDict items => match items with [] => false | _ :: _ => true end
  end.

(** [v != s] for a [str] [s]: a value of another type is never equal to a
    string. *)
Definition py_ne_str (v : PyVal) (s : string) : bool :=
  match v with
  | PyStr s' => negb (String.eqb s' s)
  | _ => true
  end.

Fixpoint dict_lookup (items : list (string * PyVal)) (key : string) : option PyVal :=
  match items with
  | [] => None
  | (k, v) :: rest => if String.eqb k key then Some v else dict_lookup rest key
  end.

(** [v.get(key, default)]: only a [dict] has the method. *)
Definition py_get (v : PyVal) (key : string) (default : PyVal) : Result PyVal :=
  match v with
  | PyDict items => Ok (from_option id default (dict_lookup items key))
  | _ => Err (mkExc AttributeError "object has no attribute 'get'")
  end.

(** [len(v)]. *)
Definition py_len (v : PyVal) : Result nat :=
  match v with
  | PyStr s => Ok (len s)
  | PyList l => Ok (length l)
  | PyDict items => Ok (length items)
  | _ => Err (mkExc TypeError "object has no len()")
  end.

(** [v.items()]. *)
Definition py_items (v : PyVal) : Result (list (string * PyVal)) :=
  match v with
  | PyDict items => Ok items
  | _ => Err (mkExc AttributeError "object has no attribute 'items'")
  end.

(** [repr(v)], given the [repr] of a [float] and of a [str]: a [list] and a
    [dict] print their items between brackets, separated by a comma and a
    space. *)
Fixpoint py_repr (float_repr : PyFloat -> string) (str_repr : string -> string)
    (v : PyVal) : string :=
  match v with
  | PyNone => "None"
  | PyBool true => "True"
  | PyBool false => "False"
  | PyInt z => NilZero.string_of_int (Z.to_int z)
  | PyFloatV f => float_repr f
  | PyStr s => str_repr s
  | PyList l =>
      "[" +:+ String.concat ", " (map (py_repr float_repr str_repr) l) +:+ "]"
  | PyDict items =>
      "{" +:+
      String.concat ", "
        (map (fun kv => match kv with
                        | (k, x) => str_repr k +:+ ": " +:+ py_repr float_repr str_repr x
                        end) items) +:+
      "}"
  end.

(** ** The page *)

(** What the script renders, in the order of the calls.  A [with] block is
    linearised as an opening element, its content, and [ExitContainer]. *)
Inductive Element : Type :=
| PageConfig (page_title page_icon layout initial_sidebar_state : string)
| Markdown (body : string) (unsafe_allow_html : bool)
| Title (body : string)
| Header (body : string)
| Subheader (body : string)
| ErrorBox (body : string) (icon : option string)
| InfoBox (body : PyVal)
| WarningBox (body : string)
| FileUploader (label type help : string)
| Button (label type : string) (use_container_width : bool)
| Spinner (text : string)
| Columns (n : nat)
| EnterColumn (i : nat)
| EnterExpander (label : string)
| ExitContainer
| Metric (label : string) (value : string)
| Json (body : PyVal).

(** ** The environment *)

(** The file object handed over by [st.file_uploader]. *)
Record UploadedFile : Type := mkUploadedFile { name : string; getvalue : string }.

(** What [page.extract_text()] does on one page: it raises, or it returns a
    string or [None]. *)
Inductive PageOutcome : Type :=
| PageRaises (e : PyExc)
| PageText (page_text : option string).

(** What pdfplumber does with the bytes of a file: [pdfplumber.open] (or the
    access to [pdf.pages]) raises, or the document has a list of pages. *)
Inductive PdfOutcome : Type :=
| OpenRaises (e : PyExc)
| Opened (pages : list PageOutcome).

Record Env : Type := mkEnv {
  (** [st.secrets]: [None] when there is no secrets file. *)
  secrets : option (gmap string string);
  (** pdfplumber, a function of the bytes. *)
  pdfplumber_open : string -> PdfOutcome;
  (** [model.generate_content(prompt, ...)] followed by [response.text]: the
      answer of the remote service to its [n]-th request. *)
  generate_content : nat -> string -> Result string;
  (** [json.loads]. *)
  json_loads : string -> Result PyVal;
  (** [repr] of a [float] and of a [str], as the interpreter prints them. *)
  float_repr : PyFloat -> string;
  str_repr : string -> string;
}.

(** [str(v)]: a [str] is itself, any other value prints as its [repr]. *)
Definition py_str (env : Env) (v : PyVal) : string :=
  match v with
  | PyStr s => s
  | _ => py_repr (float_repr env) (str_repr env) v
  end.

(** ** The world of the script *)

(** An entry of an [@st.cache_data] store: the value returned by the cached
    function and the elements it rendered, which are replayed on a hit. *)
Definition CacheEntry (A : Type) : Type := (A * list Element)%type.

Record World : Type := mkWorld {
  session_state : gmap string PyVal;
  extract_cache : gmap (list string) (CacheEntry string);
  analysis_cache : gmap (list string) (CacheEntry PyVal);
  (** the key given to [genai.configure] *)
  api_key : option string;
  (** the byte strings handed to [pdfplumber.open], oldest first *)
  pdf_opens : list string;
  (** the prompts sent to the remote model, oldest first *)
  remote_calls : list string;
  (** the elements rendered by the current execution *)
  page : list Element;
}.

Definition initial_world : World :=
  mkWorld ∅ ∅ ∅ None [] [] [].

Definition with_session_state (ss : gmap string PyVal) (w : World) : World :=
  mkWorld ss (extract_cache w) (analysis_cache w) (api_key w) (pdf_opens w)
    (remote_calls w) (page w).
Definition with_extract_cache (c : gmap (list string) (CacheEntry string)) (w : World) : World :=
  mkWorld (session_state w) c (analysis_cache w) (api_key w) (pdf_opens w)
    (remote_calls w) (page w).
Definition with_analysis_cache (c : gmap (list string) (CacheEntry PyVal)) (w : World) : World :=
  mkWorld (session_state w) (extract_cache w) c (api_key w) (pdf_opens w)
    (remote_calls w) (page w).
Definition with_api_key (k : option string) (w : World) : World :=
  mkWorld (session_state w) (extract_cache w) (analysis_cache w) k (pdf_opens w)
    (remote_calls w) (page w).
Definition with_pdf_opens (l : list string) (w : World) : World :=
  mkWorld (session_state w) (extract_cache w) (analysis_cache w) (api_key w) l
    (remote_calls w) (page w).
Definition with_remote_calls (l : list string) (w : World) : World :=
  mkWorld (session_state w) (extract_cache w) (analysis_cache w) (api_key w)
    (pdf_opens w) l (page w).
Definition with_page (p : list Element) (w : World) : World :=
  mkWorld (session_state w) (extract_cache w) (analysis_cache w) (api_key w)
    (pdf_opens w) (remote_calls w) p.

(** ** The monad of script fragments *)

(** How a fragment ends: normally, with an exception, or by [st.stop()].
    [st.stop()] is script control and no [except Exception] catches it. *)
Inductive Outcome (A : Type) : Type :=
| Return (a : A)
| Raise (e : PyExc)
| Stop.
Arguments Return {A} a.
Arguments Raise {A} e.
Arguments Stop {A}.

Definition M (A : Type) : Type := World -> Outcome A * World.

Definition ret {A} (a : A) : M A := fun w => (Return a, w).

Definition bind {A B} (m : M A) (k : A -> M B) : M B :=
  fun w =>
    match m w with
    | (Return a, w') => k a w'
    | (Raise e, w') => (Raise e, w')
    | (Stop, w') => (Stop, w')
    end.

Notation "x <- m ;; k" := (bind m (fun x => k))
  (at level 100, m at next level, right associativity).
Notation "m ;; k" := (bind m (fun _ => k))
  (at level 100, right associativity).

Definition raise {A} (e : PyExc) : M A := fun w => (Raise e, w).
Definition st_stop {A} : M A := fun w => (Stop, w).

Definition lift {A} (r : Result A) : M A :=
  match r with Ok a => ret a | Err e => raise e end.

(** [try: body  except Exception as e: handler e]. *)
Definition try_except {A} (body : M A) (handler : PyExc -> M A) : M A :=
  fun w =>
    match body w with
    | (Raise e, w') => handler e w'
    | r => r
    end.

(** [try: body  except (c1, c2, ...): handler]. *)
Definition try_except_classes {A} (classes : list ExcClass) (body : M A)
    (handler : M A) : M A :=
  fun w =>
    match body w with
    | (Raise e, w') =>
        if existsb (fun c => match c, exc_class e with
                             | KeyError, KeyError
                             | FileNotFoundError, FileNotFoundError
                             | AttributeError, AttributeError
                             | TypeError, TypeError
                             | OtherException, OtherException => true
                             | _, _ => false
                             end) classes
        then handler w' else (Raise e, w')
    | r => r
    end.

Definition render (e : Element) : M unit :=
  fun w => (Return tt, with_page (page w ++ [e]) w).

Fixpoint render_all (es : list Element) : M unit :=
  match es with
  | [] => ret tt
  | e :: rest => render e ;; render_all rest
  end.

(** [key in st.session_state], [st.session_state.key] and
    [st.session_state.key = v]. *)
Definition session_has (key : string) : M bool :=
  fun w => (Return (bool_decide (is_Some (session_state w !! key))), w).

Definition session_get (key : string) : M PyVal :=
  fun w =>
    match session_state w !! key with
    | Some v => (Return v, w)
    | None => (Raise (mkExc AttributeError ("st.session_state has no attribute " +:+ key)), w)
    end.

Definition session_set (key : string) (v : PyVal) : M unit :=
  fun w => (Return tt, with_session_state (<[key := v]> (session_state w)) w).

(** A fragment that only renders: whatever its outcome, it leaves the world
    as it was but for elements added to the page. *)
Definition page_only {A} (m : M A) : Prop :=
  forall w, exists o es, m w = (o, with_page (page w ++ es) w).

(** ** [@st.cache_data] *)

(** Streamlit builds the key of a cached call from the arguments of the
    call, and it does not hash an argument whose parameter name starts with
    an underscore: such an argument is left out of the key.  An argument is
    given here by the name of its parameter and the strings that its hash is
    computed from; the key is modelled by these strings themselves (no
    collision). *)
Definition is_hashed (param : string) : bool := negb (String.prefix "_" param).

Definition make_value_key (args : list (string * list string)) : list string :=
  concat (map snd (List.filter (fun a => is_hashed (fst a)) args)).

(** A [str] is hashed by its content, an uploaded file by its name and its
    bytes, and [None] by nothing. *)
Definition hash_str (s : string) : list string := [s].
Definition hash_uploaded_file (f : option UploadedFile) : list string :=
  match f with
  | None => []
  | Some f => [name f; getvalue f]
  end.

(** A call of a cached function.  On a hit the stored elements are replayed
    and the stored value is returned without running the function; on a miss
    the spinner is shown, the function runs, and if it returns, its value is
    stored with the elements it rendered.  Nothing is stored when it
    raises.  No entry is ever evicted: the decorators of [app.py] set neither
    [ttl] nor [max_entries]. *)
Definition cache_data {A} (store : World -> gmap (list string) (CacheEntry A))
    (with_store : gmap (list string) (CacheEntry A) -> World -> World)
    (show_spinner : string) (key : list string) (func : M A) : M A :=
  fun w =>
    match store w !! key with
    | Some (value, messages) => (render_all messages ;; ret value) w
    | None =>
        let w0 := with_page (page w ++ [Spinner show_spinner]) w in
        match func w0 with
        | (Return value, w1) =>
            let messages := drop (length (page w0)) (page w1) in
            (Return value, with_store (<[key := (value, messages)]> (store w1)) w1)
        | r => r
        end
    end.

(** ** The literals of the script *)

(** The style sheet of lines 16-33. *)
Definition app_style_lines : list string :=
  [ EmptyString;
    "<style>";
    "    .reportview-container {";
    "        margin-top: -2em;";
    "    }";
    "    #MainMenu {visibility: hidden;}";
    "    .stDeployButton {display:none;}";
    "    footer {visibility: hidden;}";
    "    #stDecoration {display:none;}";
    "    .stAlert {";
    "        border-radius: 0.5rem;";
    "    }";
    "    .stButton>button {";
    "        border-radius: 0.5rem;";
    "        font-weight: bold;";
    "    }";
    "</style>";
    EmptyString ].

(** Lines 79-119 of [app.py]: the f-string up to the replacement field. *)
Definition prompt_head_lines : list string :=
  [ EmptyString;
    "    You are an expert financial analyst AI named FinSight, powered by Google Gemini.";
    "    Your task is to analyze the financial text from a company's report.";
    "    ";
    "    **Instructions**:";
    "    1.  **Executive Summary**: Write a concise, professional summary of the company's financial health, performance, and position based on the provided text. Highlight key strengths, weaknesses, opportunities, and threats if they are apparent.";
    "    2.  **Key Ratios**: Calculate the following financial ratios if the data is available. If a value cannot be calculated from the text, return " +:+ dq +:+ "N/A" +:+ dq +:+ ".";
    "        - Current Ratio (Current Assets / Current Liabilities)";
    "        - Debt-to-Equity Ratio (Total Liabilities / Total Equity)";
    "        - Net Profit Margin (Net Income / Total Revenue)";
    "        - Return on Equity (ROE) (Net Income / Total Equity)";
    "    3.  **Data Extraction**: Extract the key figures for the most recent year available from the Income Statement and Balance Sheet. If a specific figure is not found, its value should be null.";
    EmptyString;
    "    Your entire response **MUST** be a single, valid JSON object. Do not include any text or markdown before or after the JSON object.";
    EmptyString;
    "    The required JSON structure is:";
    "    {";
    "      " +:+ dq +:+ "executive_summary" +:+ dq +:+ ": " +:+ dq +:+ "Your detailed summary here." +:+ dq +:+ ",";
    "      " +:+ dq +:+ "key_ratios" +:+ dq +:+ ": {";
    "        " +:+ dq +:+ "Current Ratio" +:+ dq +:+ ": " +:+ dq +:+ "X.XX" +:+ dq +:+ ",";
    "        " +:+ dq +:+ "Debt-to-Equity Ratio" +:+ dq +:+ ": " +:+ dq +:+ "X.XX" +:+ dq +:+ ",";
    "        " +:+ dq +:+ "Net Profit Margin" +:+ dq +:+ ": " +:+ dq +:+ "XX.X%" +:+ dq +:+ ",";
    "        " +:+ dq +:+ "Return on Equity (ROE)" +:+ dq +:+ ": " +:+ dq +:+ "XX.X%" +:+ dq;
    "      },";
    "      " +:+ dq +:+ "extracted_data" +:+ dq +:+ ": {";
    "        " +:+ dq +:+ "Income Statement" +:+ dq +:+ ": {";
    "          " +:+ dq +:+ "Total Revenue" +:+ dq +:+ ": 1000000,";
    "          " +:+ dq +:+ "Net Income" +:+ dq +:+ ": 100000";
    "        },";
    "        " +:+ dq +:+ "Balance Sheet" +:+ dq +:+ ": {";
    "          " +:+ dq +:+ "Total Current Assets" +:+ dq +:+ ": 500000,";
    "          " +:+ dq +:+ "Total Current Liabilities" +:+ dq +:+ ": 250000,";
    "          " +:+ dq +:+ "Total Liabilities" +:+ dq +:+ ": 400000,";
    "          " +:+ dq +:+ "Total Stockholders’ Equity" +:+ dq +:+ ": 600000";
    "        }";
    "      }";
    "    }";
    "    ";
    "    **Financial Text to Analyze**:";
    "    ---";
    "    " ].

(** Lines 119-123: the rest of the f-string after the replacement field. *)
Definition prompt_tail_lines : list string :=
  [ " ";
    "    ---";
    "    ";
    "    Now, provide the JSON response.";
    "    " ].


Definition join_lines (lines : list string) : string := String.concat nl lines.

Definition app_style : string := join_lines app_style_lines.

(** ** The Prompt Builder: the f-string of lines 79-123 *)

Definition prompt_head : string := join_lines prompt_head_lines.
Definition prompt_tail : string := join_lines prompt_tail_lines.

Definition build_prompt (_text_chunk : string) : string :=
  prompt_head +:+ _text_chunk +:+ prompt_tail.

Section App.

Variable env : Env.

(** ** The external services *)

(** [st.secrets[key]]. *)
Definition st_secrets (key : string) : M string :=
  match secrets env with
  | None => raise (mkExc FileNotFoundError "No secrets files found.")
  | Some m =>
      match m !! key with
      | Some v => ret v
      | None => raise (mkExc KeyError key)
      end
  end.

Definition genai_configure (key : string) : M unit :=
  fun w => (Return tt, with_api_key (Some key) w).

(** [pdfplumber.open(BytesIO(bytes))] and the access to [pdf.pages]. *)
Definition pdf_open (file_bytes : string) : M (list PageOutcome) :=
  fun w =>
    let w' := with_pdf_opens (pdf_opens w ++ [file_bytes]) w in
    match pdfplumber_open env file_bytes with
    | OpenRaises e => (Raise e, w')
    | Opened pages => (Return pages, w')
    end.

(** [page.extract_text()]. *)
Definition extract_text (page : PageOutcome) : M (option string) :=
  match page with
  | PageRaises e => raise e
  | PageText page_text => ret page_text
  end.

(** [model.generate_content(prompt, generation_config=...)] and
    [response.text]: one request to the remote service. *)
Definition model_generate_content (prompt : string) : M string :=
  fun w =>
    let w' := with_remote_calls (remote_calls w ++ [prompt]) w in
    match generate_content env (length (remote_calls w)) prompt with
    | Ok text => (Return text, w')
    | Err e => (Raise e, w')
    end.

(** ** Lines 38-43: the API key *)

Definition configure_gemini : M unit :=
  try_except_classes [KeyError; FileNotFoundError]
    (key <- st_secrets "google_api_key" ;;
     genai_configure key)
    (render (ErrorBox "⚠️ **Warning:** Google API key not found in Streamlit secrets."
                      (Some "🚨")) ;;
     render (InfoBox (PyStr "Please add your Google API key to your Streamlit secrets to continue. Name it `google_api_key`.")) ;;
     st_stop).

(** ** Lines 48-67: the Document Loader *)

(** The loop of lines 60-63, with [full_text] as an accumulator. *)
Fixpoint extract_pages (pages : list PageOutcome) (full_text : string) : M string :=
  match pages with
  | [] => ret full_text
  | page :: rest =>
      page_text <- extract_text page ;;
      match page_text with
      | Some t =>
          if str_truthy t
          then extract_pages rest (full_text +:+ t +:+ nl)
          else extract_pages rest full_text
      | None => extract_pages rest full_text
      end
  end.

(** The body of [extract_text_from_pdf]. *)
Definition extract_text_from_pdf_body (uploaded_file : option UploadedFile) : M string :=
  match uploaded_file with
  | None => ret EmptyString
  | Some f =>
      let file_bytes := getvalue f in
      try_except
        (pages <- pdf_open file_bytes ;;
         extract_pages pages EmptyString)
        (fun e =>
           render (ErrorBox ("Error extracting text from PDF: " +:+ exc_str e) None) ;;
           ret EmptyString)
  end.

(** The decorated function: its only parameter, [uploaded_file], is
    hashed. *)
Definition extract_text_from_pdf (uploaded_file : option UploadedFile) : M string :=
  cache_data extract_cache with_extract_cache "Extracting text from PDF..."
    (make_value_key [("uploaded_file", hash_uploaded_file uploaded_file)])
    (extract_text_from_pdf_body uploaded_file).

(** ** Lines 69-137: the Analysis Client *)

(** The body of [analyze_financial_text_with_gemini].  Line 76 only builds
    the client object of the model; the request is sent at line 126. *)
Definition analyze_financial_text_with_gemini_body (_text_chunk : string) : M PyVal :=
  let prompt := build_prompt _text_chunk in
  try_except
    (response_text <- model_generate_content prompt ;;
     result_json <- lift (json_loads env response_text) ;;
     ret result_json)
    (fun e =>
       render (ErrorBox ("Error during AI analysis with Gemini: " +:+ exc_str e)
                        (Some "🔥")) ;;
       ret PyNone).

(** The decorated function: its only parameter is named [_text_chunk]. *)
Definition analyze_financial_text_with_gemini (_text_chunk : string) : M PyVal :=
  cache_data analysis_cache with_analysis_cache "Gemini is analyzing the document..."
    (make_value_key [("_text_chunk", hash_str _text_chunk)])
    (analyze_financial_text_with_gemini_body _text_chunk).

(** ** Lines 141-170: the main interface *)

(** Lines 145-148. *)
Definition init_session_state : M unit :=
  has_result <- session_has "analysis_result" ;;
  (if has_result then ret tt else session_set "analysis_result" PyNone) ;;
  has_name <- session_has "last_file_name" ;;
  (if has_name then ret tt else session_set "last_file_name" PyNone).

(** Lines 158-160: a new file clears the previous result. *)
Definition handle_upload (uploaded_file : UploadedFile) : M unit :=
  last_file_name <- session_get "last_file_name" ;;
  if py_ne_str last_file_name (name uploaded_file)
  then
    session_set "analysis_result" PyNone ;;
    session_set "last_file_name" (PyStr (name uploaded_file))
  else ret tt.

(** Lines 163-170: what a click on the button runs. *)
Definition analyze_flow (uploaded_file : UploadedFile) : M unit :=
  full_text <- extract_text_from_pdf (Some uploaded_file) ;;
  if str_truthy full_text && (100 <? len full_text)
  then
    analysis_result <- analyze_financial_text_with_gemini full_text ;;
    session_set "analysis_result" analysis_result
  else
    render (ErrorBox "Could not extract sufficient text from the document. Please try another file."
                     (Some "📄")) ;;
    session_set "analysis_result" PyNone.

(** Lines 156-170.  The button exists only while a file is uploaded, and
    [clicked] tells whether this execution was triggered by it. *)
Definition upload_section (uploaded_file : option UploadedFile) (clicked : bool) : M unit :=
  match uploaded_file with
  | Some f =>
      handle_upload f ;;
      render (Button "Analyze Financials" "primary" true) ;;
      if clicked then analyze_flow f else ret tt
  | None => ret tt
  end.

(** ** Lines 172-195: the report *)

(** The loop of lines 187-189. *)
Fixpoint render_metrics (i : nat) (items : list (string * PyVal)) : M unit :=
  match items with
  | [] => ret tt
  | (key, value) :: rest =>
      render (EnterColumn i) ;;
      render (Metric key (py_str env value)) ;;
      render ExitContainer ;;
      render_metrics (S i) rest
  end.

Definition display_results : M unit :=
  result <- session_get "analysis_result" ;;
  if truthy result
  then
    render (Markdown "---" false) ;;
    render (Header "Financial Analysis Report") ;;
    render (Subheader "📝 Executive Summary") ;;
    summary <- lift (py_get result "executive_summary"
                       (PyStr "Summary could not be generated.")) ;;
    render (InfoBox summary) ;;
    render (Subheader "📊 Key Financial Ratios") ;;
    key_ratios <- lift (py_get result "key_ratios" (PyDict [])) ;;
    (if truthy key_ratios
     then
       n <- lift (py_len key_ratios) ;;
       render (Columns n) ;;
       items <- lift (py_items key_ratios) ;;
       render_metrics 0 items
     else
       render (WarningBox "No key ratios could be calculated from the document.")) ;;
    render (EnterExpander "🔬 View Raw Extracted Data (JSON)") ;;
    extracted_data <- lift (py_get result "extracted_data"
                              (PyDict [("error", PyStr "No data extracted.")])) ;;
    render (Json extracted_data) ;;
    render ExitContainer
  else ret tt.

(** ** The script *)

(** One execution of [app.py], given what the file uploader holds and
    whether the button was clicked. *)
Definition app (uploaded_file : option UploadedFile) (clicked : bool) : M unit :=
  render (PageConfig "FinSight AI ⚡ Gemini Edition" "⚡" "wide" "collapsed") ;;
  render (Markdown app_style true) ;;
  configure_gemini ;;
  render (Title "FinSight AI ⚡ Gemini Edition") ;;
  render (Markdown "Upload a company's financial report (PDF) to receive an instant, AI-powered analysis." false) ;;
  init_session_state ;;
  render (FileUploader "Choose a financial document..." "pdf"
            "Upload an annual report or financial statement in PDF format.") ;;
  upload_section uploaded_file clicked ;;
  display_results ;;
  render (Markdown "---" false) ;;
  render (Markdown "Powered by **Google Gemini 1.5 Flash** and **Streamlit**." false).

(** Streamlit starts every execution with an empty page and keeps the rest
    of the world. *)
Definition rerun (uploaded_file : option UploadedFile) (clicked : bool) (w : World)
    : Outcome unit * World :=
  app uploaded_file clicked (with_page [] w).

(** A user interaction, and a session as the list of its interactions. *)
Definition Interaction : Type := (option UploadedFile * bool)%type.

Definition step (w : World) (i : Interaction) : World :=
  snd (rerun (fst i) (snd i) w).

Definition session (inputs : list Interaction) (w : World) : World :=
  fold_left step inputs w.

Inductive reachable : World -> Prop :=
| reachable_initial : reachable initial_world
| reachable_step w i : reachable w -> reachable (step w i).

(** ** What the script computes, in closed form

    The functions below are read off the monadic code above and are proved
    equal to it in the next part; the statements of the properties refer to
    the code. *)

(** The configured key, if the secrets hold one. *)
Definition configured_key : option string :=
  match secrets env with
  | None => None
  | Some m => m !! "google_api_key"
  end.

(** The text accumulated over the pages, or the first exception. *)
Fixpoint pages_text (pages : list PageOutcome) (full_text : string) : Result string :=
  match pages with
  | [] => Ok full_text
  | PageRaises e :: _ => Err e
  | PageText (Some t) :: rest =>
      if str_truthy t then pages_text rest (full_text +:+ t +:+ nl)
      else pages_text rest full_text
  | PageText None :: rest => pages_text rest full_text
  end.

Definition extraction_error (e : PyExc) : Element :=
  ErrorBox ("Error extracting text from PDF: " +:+ exc_str e) None.

Definition analysis_error (e : PyExc) : Element :=
  ErrorBox ("Error during AI analysis with Gemini: " +:+ exc_str e) (Some "🔥").

Definition insufficient_text_error : Element :=
  ErrorBox "Could not extract sufficient text from the document. Please try another file."
           (Some "📄").

(** The value and the elements of a run of the body of
    [extract_text_from_pdf] on a file. *)
Definition extraction_outcome (f : UploadedFile) : CacheEntry string :=
  match pdfplumber_open env (getvalue f) with
  | OpenRaises e => (EmptyString, [extraction_error e])
  | Opened pages =>
      match pages_text pages EmptyString with
      | Ok t => (t, [])
      | Err e => (EmptyString, [extraction_error e])
      end
  end.

(** The value and the elements of a run of the body of
    [analyze_financial_text_with_gemini] that makes the [n]-th request. *)
Definition analysis_outcome (n : nat) (text : string) : CacheEntry PyVal :=
  match generate_content env n (build_prompt text) with
  | Err e => (PyNone, [analysis_error e])
  | Ok response_text =>
      match json_loads env response_text with
      | Ok v => (v, [])
      | Err e => (PyNone, [analysis_error e])
      end
  end.

(** The request fails: the service raises, or its reply is not JSON. *)
Inductive remote_failure (n : nat) (prompt : string) (e : PyExc) : Prop :=
| service_error :
    generate_content env n prompt = Err e -> remote_failure n prompt e
| invalid_json response_text :
    generate_content env n prompt = Ok response_text ->
    json_loads env response_text = Err e ->
    remote_failure n prompt e.

(** The extraction fails: pdfplumber raises when it opens the file, or on
    some page after pages that were read. *)
Inductive extraction_failure (f : UploadedFile) (e : PyExc) : Prop :=
| open_failure :
    pdfplumber_open env (getvalue f) = OpenRaises e -> extraction_failure f e
| page_failure texts rest :
    pdfplumber_open env (getvalue f) = Opened (map PageText texts ++ PageRaises e :: rest) ->
    extraction_failure f e.

(** What a direct run of the Document Loader returns for a file. *)
Definition extracted_text (f : UploadedFile) : Outcome string :=
  fst (extract_text_from_pdf_body (Some f) initial_world).

(** The stored AnalysisResult; a missing key holds no result. *)
Definition stored_result (w : World) : PyVal :=
  default PyNone (session_state w !! "analysis_result").

(** The session state after lines 145-148. *)
Definition init_keys (ss : gmap string PyVal) : gmap string PyVal :=
  let ss1 := if bool_decide (is_Some (ss !! "analysis_result")) then ss
             else <["analysis_result" := PyNone]> ss in
  if bool_decide (is_Some (ss1 !! "last_file_name")) then ss1
  else <["last_file_name" := PyNone]> ss1.

(** The elements rendered before and after the configuration. *)
Definition page_before_configuration : list Element :=
  [ PageConfig "FinSight AI ⚡ Gemini Edition" "⚡" "wide" "collapsed";
    Markdown app_style true ].

Definition configuration_error_page : list Element :=
  page_before_configuration ++
  [ ErrorBox "⚠️ **Warning:** Google API key not found in Streamlit secrets." (Some "🚨");
    InfoBox (PyStr "Please add your Google API key to your Streamlit secrets to continue. Name it `google_api_key`.") ].

Definition page_before_upload : list Element :=
  page_before_configuration ++
  [ Title "FinSight AI ⚡ Gemini Edition";
    Markdown "Upload a company's financial report (PDF) to receive an instant, AI-powered analysis." false;
    FileUploader "Choose a financial document..." "pdf"
      "Upload an annual report or financial statement in PDF format." ].

(** The world in which line 156 starts, when the key is configured. *)
Definition world_before_upload (key : string) (w : World) : World :=
  with_page page_before_upload
    (with_session_state (init_keys (session_state w))
       (with_api_key (Some key) w)).

(** The call of line 163, by the state of the extraction store. *)
Definition extract_step (f : UploadedFile) (w : World) : string * World :=
  match extract_cache w !! hash_uploaded_file (Some f) with
  | Some (value, messages) => (value, with_page (page w ++ messages) w)
  | None =>
      (fst (extraction_outcome f),
       with_extract_cache
         (<[hash_uploaded_file (Some f) := extraction_outcome f]> (extract_cache w))
         (with_page
            (page w ++ Spinner "Extracting text from PDF..." :: snd (extraction_outcome f))
            (with_pdf_opens (pdf_opens w ++ [getvalue f]) w)))
  end.

(** The call of line 166, by the state of the analysis store. *)
Definition analysis_step (text : string) (w : World) : PyVal * World :=
  match analysis_cache w !! [] with
  | Some (value, messages) => (value, with_page (page w ++ messages) w)
  | None =>
      let o := analysis_outcome (length (remote_calls w)) text in
      (fst o,
       with_analysis_cache (<[[] := o]> (analysis_cache w))
         (with_page
            (page w ++ Spinner "Gemini is analyzing the document..." :: snd o)
            (with_remote_calls (remote_calls w ++ [build_prompt text]) w)))
  end.

(** The world after lines 158-160, for an initialised session state. *)
Definition after_handle_upload (f : UploadedFile) (w : World) : World :=
  if py_ne_str (default PyNone (session_state w !! "last_file_name")) (name f)
  then with_session_state
         (<["last_file_name" := PyStr (name f)]>
            (<["analysis_result" := PyNone]> (session_state w))) w
  else w.

(** The world in which line 163 starts. *)
Definition after_upload (f : UploadedFile) (w : World) : World :=
  let w' := after_handle_upload f w in
  with_page (page w' ++ [Button "Analyze Financials" "primary" true]) w'.

(** The world after lines 163-170. *)
Definition after_analyze_flow (f : UploadedFile) (w : World) : World :=
  let (full_text, we) := extract_step f w in
  if str_truthy full_text && (100 <? len full_text)
  then
    let (analysis_result, wa) := analysis_step full_text we in
    with_session_state (<["analysis_result" := analysis_result]> (session_state wa)) wa
  else
    let wi := with_page (page we ++ [insufficient_text_error]) we in
    with_session_state (<["analysis_result" := PyNone]> (session_state wi)) wi.

(** The world after lines 156-170. *)
Definition after_upload_section (uploaded_file : option UploadedFile) (clicked : bool)
    (w : World) : World :=
  match uploaded_file with
  | Some f => if clicked then after_analyze_flow f (after_upload f w) else after_upload f w
  | None => w
  end.

(** The concatenation of a list of strings, in order. *)
Definition concat_strings (l : list string) : string :=
  foldr String.append EmptyString l.

(** The pages that yield text: [page_text] is neither [None] nor empty. *)
Definition pages_with_text (texts : list (option string)) : list string :=
  List.filter str_truthy (omap id texts).

(** ** Invariants of the stores *)

(** Every entry of the extraction store is what the body computes for the
    file of its key. *)
Definition extract_cache_consistent (w : World) : Prop :=
  forall key entry, extract_cache w !! key = Some entry ->
    exists f, key = hash_uploaded_file (Some f) /\ entry = extraction_outcome f.

(** A stored result came out of the analysis store. *)
Definition result_is_cached (w : World) : Prop :=
  stored_result w <> PyNone -> is_Some (analysis_cache w !! []).

End App.

Arguments app_style : simpl never.
Arguments prompt_head : simpl never.
Arguments prompt_tail : simpl never.
Arguments build_prompt : simpl never.

(** ** A sample environment *)

Definition acme_text_page : string :=
  "ACME Corp annual report 2023. Total revenue 1000000. Net income 100000. Total current assets 500000. Total current liabilities 250000.".

Definition globex_text_page : string :=
  "Globex Inc annual report 2023. Total revenue 42000000. Net income 3000000. Total liabilities 9000000. Total stockholders equity 12000000.".

Definition initech_text_page : string :=
  "Initech LLC annual report 2023. Total revenue 730000. Net income 12000. Total current assets 90000. Total current liabilities 110000.".

Definition acme_text : string := acme_text_page +:+ nl.
Definition globex_text : string := globex_text_page +:+ nl.
Definition initech_text : string := initech_text_page +:+ nl.

Definition acme_report : UploadedFile := mkUploadedFile "acme.pdf" "%PDF-1.7 acme".
Definition revised_acme_report : UploadedFile :=
  mkUploadedFile "acme.pdf" "%PDF-1.7 acme, revised".
Definition globex_report : UploadedFile := mkUploadedFile "globex.pdf" "%PDF-1.7 globex".
Definition initech_report : UploadedFile := mkUploadedFile "initech.pdf" "%PDF-1.7 initech".
Definition short_report : UploadedFile := mkUploadedFile "note.pdf" "%PDF-1.7 note".
Definition truncated_report : UploadedFile := mkUploadedFile "cut.pdf" "%PDF-1.7 cut".
Definition corrupt_report : UploadedFile := mkUploadedFile "corrupt.pdf" "not a pdf".

(** A page of 98 code points and 110 bytes. *)
Definition bilan_text_page : string :=
  "Chiffre d’affaires : 1 000 000 € ; Résultat net : 100 000 € ; Actif circulant : 500 000 € ; Dû : €".
Definition bilan_text : string := bilan_text_page +:+ nl.
Definition bilan_report : UploadedFile := mkUploadedFile "bilan.pdf" "%PDF-1.7 bilan".

(** A one-line note uploaded under the name of [acme_report]. *)
Definition acme_note : UploadedFile := mkUploadedFile "acme.pdf" "%PDF-1.7 acme, note".

Definition short_report_pages : list (option string) :=
  [Some "Revenue: 100"; Some "Net Income: 10"].

Definition no_root_object : PyExc :=
  mkExc OtherException "No /Root object! - Is this really a PDF?".
Definition unexpected_eof : PyExc := mkExc OtherException "Unexpected EOF".
Definition service_unavailable : PyExc :=
  mkExc OtherException "503 The service is currently unavailable.".
Definition expecting_value : PyExc :=
  mkExc OtherException "Expecting value: line 1 column 1 (char 0)".

Definition sample_pdfplumber (file_bytes : string) : PdfOutcome :=
  if String.eqb file_bytes (getvalue acme_report)
  then Opened [PageText (Some acme_text_page); PageText None; PageText (Some EmptyString)]
  else if String.eqb file_bytes (getvalue revised_acme_report)
  then Opened [PageText (Some initech_text_page)]
  else if String.eqb file_bytes (getvalue globex_report)
  then Opened [PageText (Some globex_text_page)]
  else if String.eqb file_bytes (getvalue initech_report)
  then Opened [PageText (Some initech_text_page)]
  else if String.eqb file_bytes (getvalue short_report)
  then Opened (map PageText short_report_pages)
  else if String.eqb file_bytes (getvalue truncated_report)
  then Opened (map PageText [Some "Revenue: 100"] ++ PageRaises unexpected_eof :: [])
  else if String.eqb file_bytes (getvalue bilan_report)
  then Opened [PageText (Some bilan_text_page)]
  else if String.eqb file_bytes (getvalue acme_note)
  then Opened [PageText (Some "Revenue: 100")]
  else OpenRaises no_root_object.

Definition json_object (key value : string) : string :=
  "{" +:+ dq +:+ key +:+ dq +:+ ": " +:+ dq +:+ value +:+ dq +:+ "}".

Definition acme_reply : string := json_object "executive_summary" "ACME is profitable.".
Definition globex_reply : string := json_object "executive_summary" "Globex is solvent.".

Definition acme_analysis : PyVal :=
  PyDict [("executive_summary", PyStr "ACME is profitable.")].
Definition globex_analysis : PyVal :=
  PyDict [("executive_summary", PyStr "Globex is solvent.")].

(** The service answers the two prompts it knows and is unavailable
    otherwise. *)
Definition sample_generate_content (n : nat) (prompt : string) : Result string :=
  if String.eqb prompt (build_prompt acme_text) then Ok acme_reply
  else if String.eqb prompt (build_prompt globex_text) then Ok globex_reply
  else Err service_unavailable.

Definition sample_json_loads (s : string) : Result PyVal :=
  if String.eqb s acme_reply then Ok acme_analysis
  else if String.eqb s globex_reply then Ok globex_analysis
  else Err expecting_value.

(** The [repr] of the floats and of the strings of the sample replies: the
    special floats and zero, and strings of printable ASCII characters
    without quote or backslash. *)
Definition sample_float_repr (f : PyFloat) : string :=
  match f with
  | FNaN => "nan"
  | FInf false => "inf"
  | FInf true => "-inf"
  | FFinite false 0%N _ => "0.0"
  | FFinite true 0%N _ => "-0.0"
  | FFinite _ _ _ => EmptyString
  end.

Definition sample_str_repr (s : string) : string := "'" +:+ s +:+ "'".

Definition sample_env : Env :=
  mkEnv (Some {[ "google_api_key" := "sample-key" ]})
    sample_pdfplumber sample_generate_content sample_json_loads
    sample_float_repr sample_str_repr.

(** The same environment without a secrets file. *)
Definition unconfigured_env : Env :=
  mkEnv None sample_pdfplumber sample_generate_content sample_json_loads
    sample_float_repr sample_str_repr.

(** The world after the upload and the analysis of [acme_report]. *)
Definition acme_analysed : World :=
  session sample_env [(Some acme_report, false); (Some acme_report, true)] initial_world.

(** ** Lines 164-170, in closed form *)

(** The world after lines 164-170, from the text and the world that the
    call of line 163 gives. *)
Definition after_text_test (env : Env) (full_text : string) (we : World) : World :=
  if str_truthy full_text && (100 <? len full_text)
  then
    let (analysis_result, wa) := analysis_step env full_text we in
    with_session_state (<["analysis_result" := analysis_result]> (session_state wa)) wa
  else
    let wi := with_page (page we ++ [insufficient_text_error]) we in
    with_session_state (<["analysis_result" := PyNone]> (session_state wi)) wi.

(** ** The report, in closed form *)

Definition is_dict (v : PyVal) : bool :=
  match v with PyDict _ => true | _ => false end.

(** The stored results that lines 173-195 go through without an exception:
    a result that tests false, which is not rendered at all, or a [dict]
    whose ["key_ratios"], if there is one, tests false or is a [dict]. *)
Definition displayable (result : PyVal) : bool :=
  negb (truthy result) ||
  match result with
  | PyDict items =>
      match dict_lookup items "key_ratios" with
      | None => true
      | Some key_ratios => negb (truthy key_ratios) || is_dict key_ratios
      end
  | _ => false
  end.

(** The metrics of lines 187-189: the ratio of index [i] in the column of
    index [i]. *)
Definition metric_elements (env : Env) (ratios : list (string * PyVal)) : list Element :=
  concat (imap (fun i kv => [EnterColumn i; Metric (fst kv) (py_str env (snd kv));
                             ExitContainer])
               ratios).

(** ** More of the sample environment *)

(** A service whose reply is always the JSON array of one number. *)
Definition array_env : Env :=
  mkEnv (Some {[ "google_api_key" := "sample-key" ]})
    sample_pdfplumber (fun _ _ => Ok "[1]") (fun _ => Ok (PyList [PyInt 1]))
    sample_float_repr sample_str_repr.

Definition sample_ratios : list (string * PyVal) :=
  [("Current Ratio", PyStr "2.00"); ("Debt-to-Equity Ratio", PyInt 2);
   ("Net Profit Margin", PyNone); ("Return on Equity (ROE)", PyList [PyStr "N/A"; PyBool true])].

Definition ratios_analysis : PyVal :=
  PyDict [("executive_summary", PyStr "ACME is profitable.");
          ("key_ratios", PyDict sample_ratios)].

(** A world whose session holds [ratios_analysis]. *)
Definition ratios_world : World :=
  with_session_state {[ "analysis_result" := ratios_analysis ]} initial_world.

(** ** Clearing the stores *)



(** * Properties *)

Section Properties.

Variable env : Env.

Ltac world_simpl :=
  cbn [session_state extract_cache analysis_cache api_key pdf_opens remote_calls page
       with_session_state with_extract_cache with_analysis_cache with_api_key
       with_pdf_opens with_remote_calls with_page world_before_upload fst snd] in *.

(** ** Worlds *)

Lemma with_page_id w : with_page (page w) w = w.
Proof. by destruct w. Qed.

Lemma string_app_assoc (a b c : string) : (a +:+ b) +:+ c = a +:+ b +:+ c.
Proof.
  induction a as [|x a IH]; [done|].
  unfold String.append; fold String.append. by rewrite IH.
Qed.

Lemma string_app_nil_r (a : string) : a +:+ EmptyString = a.
Proof.
  induction a as [|x a IH]; [done|].
  unfold String.append; fold String.append. by rewrite IH.
Qed.

(** ** The monadic code in closed form *)

Lemma bind_return {A B} (m : M A) (k : A -> M B) w a w' :
  m w = (Return a, w') -> bind m k w = k a w'.
Proof. unfold bind. by intros ->. Qed.

Lemma render_all_eq es w :
  render_all es w = (Return tt, with_page (page w ++ es) w).
Proof.
  revert w. induction es as [|e es IH]; intros w.
  - cbn. by rewrite app_nil_r, with_page_id.
  - cbn. unfold bind, render. rewrite IH. cbn. by rewrite <- app_assoc.
Qed.

Lemma extract_pages_eq pages full_text w :
  extract_pages pages full_text w =
  (match pages_text pages full_text with Ok t => Return t | Err e => Raise e end, w).
Proof.
  revert full_text. induction pages as [|p pages IH]; intros full_text; [done|].
  destruct p as [e|[t|]]; cbn; unfold bind; cbn; [done| |by rewrite IH].
  destruct (str_truthy t); by rewrite IH.
Qed.

Lemma extract_body_eq f w :
  extract_text_from_pdf_body env (Some f) w =
  (Return (fst (extraction_outcome env f)),
   with_page (page w ++ snd (extraction_outcome env f))
     (with_pdf_opens (pdf_opens w ++ [getvalue f]) w)).
Proof.
  unfold extract_text_from_pdf_body, try_except, bind, pdf_open, extraction_outcome.
  destruct (pdfplumber_open env (getvalue f)) as [e|pages]; cbn.
  - done.
  - rewrite extract_pages_eq.
    destruct (pages_text pages EmptyString); cbn; [|done].
    by rewrite app_nil_r.
Qed.

Lemma analyze_body_eq text w :
  analyze_financial_text_with_gemini_body env text w =
  (Return (fst (analysis_outcome env (length (remote_calls w)) text)),
   with_page (page w ++ snd (analysis_outcome env (length (remote_calls w)) text))
     (with_remote_calls (remote_calls w ++ [build_prompt text]) w)).
Proof.
  unfold analyze_financial_text_with_gemini_body, try_except, bind,
    model_generate_content, analysis_outcome.
  destruct (generate_content env _ _) as [response_text|e]; cbn; [|done].
  destruct (json_loads env response_text); cbn; [|done].
  by rewrite app_nil_r.
Qed.

Lemma extract_cached_eq f w :
  extract_text_from_pdf env (Some f) w =
  (Return (fst (extract_step env f w)), snd (extract_step env f w)).
Proof.
  unfold extract_text_from_pdf, cache_data, extract_step.
  change (make_value_key _) with (hash_uploaded_file (Some f)).
  destruct (extract_cache w !! _) as [[value messages]|].
  - unfold bind. by rewrite render_all_eq.
  - rewrite extract_body_eq. cbn [page with_page extract_cache with_pdf_opens].
    rewrite drop_app_length. destruct (extraction_outcome env f) as [t msgs]. cbn.
    by rewrite <- app_assoc.
Qed.

Lemma analyze_cached_eq text w :
  analyze_financial_text_with_gemini env text w =
  (Return (fst (analysis_step env text w)), snd (analysis_step env text w)).
Proof.
  unfold analyze_financial_text_with_gemini, cache_data, analysis_step.
  change (make_value_key _) with (@nil string).
  destruct (analysis_cache w !! _) as [[value messages]|].
  - unfold bind. by rewrite render_all_eq.
  - rewrite analyze_body_eq. cbn [page with_page analysis_cache remote_calls with_remote_calls].
    rewrite drop_app_length.
    destruct (analysis_outcome env _ text) as [v msgs]. cbn.
    by rewrite <- app_assoc.
Qed.

Lemma analyze_flow_eq f w :
  analyze_flow env f w = (Return tt, after_analyze_flow env f w).
Proof.
  unfold analyze_flow, after_analyze_flow.
  erewrite bind_return by apply extract_cached_eq.
  destruct (extract_step env f w) as [full_text we]. cbn [fst snd].
  destruct (str_truthy full_text && (100 <? len full_text)).
  - erewrite bind_return by apply analyze_cached_eq.
    by destruct (analysis_step env full_text we).
  - by erewrite (bind_return (render _)) by reflexivity.
Qed.

Lemma handle_upload_eq f w :
  is_Some (session_state w !! "last_file_name") ->
  handle_upload f w = (Return tt, after_handle_upload f w).
Proof.
  intros [last Hlast].
  unfold handle_upload, after_handle_upload, bind, session_get, session_set, ret.
  rewrite Hlast. cbn. by destruct (py_ne_str last (name f)).
Qed.

Lemma upload_section_eq uploaded_file clicked w :
  is_Some (session_state w !! "last_file_name") ->
  upload_section env uploaded_file clicked w =
  (Return tt, after_upload_section env uploaded_file clicked w).
Proof.
  intros Hlast. destruct uploaded_file as [f|]; [|done].
  unfold upload_section, after_upload_section.
  erewrite bind_return by (by apply handle_upload_eq).
  erewrite (bind_return (render _)) by reflexivity.
  destruct clicked; [apply analyze_flow_eq|done].
Qed.

(** ** Fragments that only render *)

Lemma page_only_nil {A} (o : Outcome A) w :
  exists o' es, (o, w) = (o', with_page (page w ++ es) w).
Proof. exists o, []. by rewrite app_nil_r, with_page_id. Qed.

Lemma page_only_ret {A} (a : A) : page_only (ret a).
Proof. intros w. apply page_only_nil. Qed.

Lemma page_only_lift {A} (r : Result A) : page_only (lift r).
Proof. intros w. destruct r; apply page_only_nil. Qed.

Lemma page_only_render e : page_only (render e).
Proof. intros w. by exists (Return tt), [e]. Qed.

Lemma page_only_session_get key : page_only (session_get key).
Proof.
  intros w. unfold session_get. destruct (session_state w !! key); apply page_only_nil.
Qed.

Lemma page_only_bind {A B} (m : M A) (k : A -> M B) :
  page_only m -> (forall a, page_only (k a)) -> page_only (bind m k).
Proof.
  intros Hm Hk w. unfold bind. destruct (Hm w) as (o & es & ->).
  destruct o as [a|e|]; [|by eauto..].
  destruct (Hk a (with_page (page w ++ es) w)) as (o' & es' & ->).
  exists o', (es ++ es'). cbn. by rewrite app_assoc.
Qed.

Lemma page_only_render_metrics i items : page_only (render_metrics env i items).
Proof.
  revert i. induction items as [|[key value] items IH]; intros i; cbn.
  - apply page_only_ret.
  - repeat (apply page_only_bind; [apply page_only_render|intros _]). apply IH.
Qed.

Lemma page_only_display_results : page_only (display_results env).
Proof.
  unfold display_results.
  apply page_only_bind; [apply page_only_session_get|intros result].
  destruct (truthy result); [|apply page_only_ret].
  repeat first
    [ apply page_only_render | apply page_only_lift | apply page_only_ret
    | apply page_only_render_metrics
    | apply page_only_bind; [|intros ?]
    | match goal with |- page_only (if ?b then _ else _) => destruct b end ].
Qed.

(** ** One execution of the script *)

Lemma init_keys_lookup_result ss :
  init_keys ss !! "analysis_result" = Some (default PyNone (ss !! "analysis_result")).
Proof.
  unfold init_keys. repeat case_bool_decide; simplify_map_eq;
    repeat match goal with
           | H : is_Some _ |- _ => destruct H as [? H]; try rewrite H
           | H : ¬ is_Some _ |- _ => apply eq_None_not_Some in H; try rewrite H
           end; simplify_map_eq; done.
Qed.

Lemma init_keys_lookup_name ss :
  init_keys ss !! "last_file_name" = Some (default PyNone (ss !! "last_file_name")).
Proof.
  unfold init_keys. repeat case_bool_decide; simplify_map_eq;
    repeat match goal with
           | H : is_Some _ |- _ => destruct H as [? H]; try rewrite H
           | H : ¬ is_Some _ |- _ => apply eq_None_not_Some in H; try rewrite H
           end; simplify_map_eq; done.
Qed.

Lemma init_session_state_eq w :
  init_session_state w = (Return tt, with_session_state (init_keys (session_state w)) w).
Proof.
  unfold init_session_state, init_keys, bind, session_has, session_set, ret.
  cbn. repeat case_bool_decide; cbn; try done; by destruct w.
Qed.

(** Without a key the script stops after the two messages. *)
Lemma rerun_unconfigured uploaded_file clicked w :
  configured_key env = None ->
  rerun env uploaded_file clicked w = (Stop, with_page (configuration_error_page) w).
Proof.
  unfold configured_key, rerun, app, configure_gemini, try_except_classes, st_secrets, bind.
  intros H. cbn. destruct (secrets env) as [m|]; [rewrite H|]; done.
Qed.

Lemma configure_gemini_ok key w :
  configured_key env = Some key ->
  configure_gemini env w = (Return tt, with_api_key (Some key) w).
Proof.
  unfold configured_key, configure_gemini, try_except_classes, st_secrets, bind.
  intros H. destruct (secrets env) as [m|]; [|done]. by rewrite H.
Qed.

(** With a key, the script reaches line 156; what it renders after line 170
    changes nothing but the page. *)
Lemma rerun_configured key uploaded_file clicked w :
  configured_key env = Some key ->
  exists o es,
    let w2 := after_upload_section env uploaded_file clicked (world_before_upload key w) in
    rerun env uploaded_file clicked w = (o, with_page (page w2 ++ es) w2).
Proof.
  intros H.
  assert (Htail : page_only (display_results env ;;
            render (Markdown "---" false) ;;
            render (Markdown "Powered by **Google Gemini 1.5 Flash** and **Streamlit**." false))).
  { apply page_only_bind; [apply page_only_display_results|intros _].
    apply page_only_bind; [apply page_only_render|intros _]. apply page_only_render. }
  unfold rerun, app.
  do 2 (erewrite (bind_return (render _)) by reflexivity).
  erewrite (bind_return (configure_gemini env)) by (by apply configure_gemini_ok).
  do 2 (erewrite (bind_return (render _)) by reflexivity).
  erewrite (bind_return init_session_state) by apply init_session_state_eq.
  erewrite (bind_return (render _)) by reflexivity.
  match goal with |- context [bind _ _ ?w1] =>
    change w1 with (world_before_upload key w) end.
  erewrite bind_return; [apply Htail|].
  apply upload_section_eq. cbn. rewrite init_keys_lookup_name. by eexists.
Qed.

Lemma step_unconfigured i w :
  configured_key env = None -> step env w i = with_page configuration_error_page w.
Proof. intros H. unfold step. by rewrite rerun_unconfigured. Qed.

Lemma step_configured key i w :
  configured_key env = Some key ->
  exists es,
    let w2 := after_upload_section env (fst i) (snd i) (world_before_upload key w) in
    step env w i = with_page (page w2 ++ es) w2.
Proof.
  intros H. unfold step.
  destruct (rerun_configured key (fst i) (snd i) w H) as (o & es & ->). by exists es.
Qed.

(** ** The stores along a session *)

Lemma stored_result_init_keys key w :
  stored_result (world_before_upload key w) = stored_result w.
Proof.
  unfold stored_result. world_simpl. rewrite init_keys_lookup_result.
  by destruct (session_state w !! "analysis_result").
Qed.

(** The extraction call touches the extraction store, the log of opened
    files and the page only. *)
Lemma extract_step_frame f w :
  let w' := snd (extract_step env f w) in
  session_state w' = session_state w /\ analysis_cache w' = analysis_cache w /\
  remote_calls w' = remote_calls w /\ api_key w' = api_key w /\
  page w `prefix_of` page w'.
Proof.
  unfold extract_step. destruct (extract_cache w !! _) as [[value messages]|];
    world_simpl; repeat split; by apply prefix_app_r.
Qed.

Lemma extract_step_consistent f w :
  extract_cache_consistent env w ->
  let o := extraction_outcome env f in
  let w' := snd (extract_step env f w) in
  fst (extract_step env f w) = fst o /\
  extract_cache_consistent env w' /\
  (forall e, e ∈ snd o -> e ∈ page w').
Proof.
  intros Hw. unfold extract_step.
  destruct (extract_cache w !! _) as [[value messages]|] eqn:Hlookup; world_simpl.
  - destruct (Hw _ _ Hlookup) as (f' & Hkey & Hentry).
    assert (extraction_outcome env f' = extraction_outcome env f) as Heq.
    { unfold extraction_outcome. injection Hkey as _ Hbytes. by rewrite Hbytes. }
    rewrite Heq in Hentry. rewrite <- Hentry. cbn. split_and!; [done|done|].
    intros e He. apply elem_of_app. by right.
  - split_and!; [done| |].
    + intros key entry. world_simpl. rewrite lookup_insert.
      case_decide; [|by apply Hw]. intros [= <-]. by exists f.
    + intros e He. apply elem_of_app. right. by apply elem_of_cons; right.
Qed.

(** The analysis call touches the analysis store, the log of requests and
    the page only; it makes a request exactly when its store is empty. *)
Lemma analysis_step_frame text w :
  let w' := snd (analysis_step env text w) in
  session_state w' = session_state w /\ extract_cache w' = extract_cache w /\
  api_key w' = api_key w /\ page w `prefix_of` page w' /\
  is_Some (analysis_cache w' !! []).
Proof.
  unfold analysis_step. destruct (analysis_cache w !! _) as [[value messages]|] eqn:H;
    world_simpl; split_and!; try done; try (by apply prefix_app_r);
    try (by rewrite H); by rewrite lookup_insert_eq.
Qed.

Lemma after_upload_frame f w :
  let w' := after_upload f w in
  extract_cache w' = extract_cache w /\ analysis_cache w' = analysis_cache w /\
  remote_calls w' = remote_calls w /\ api_key w' = api_key w /\
  page w `prefix_of` page w' /\
  (stored_result w' = stored_result w \/ stored_result w' = PyNone).
Proof.
  unfold after_upload, after_handle_upload, stored_result.
  destruct (py_ne_str _ _); world_simpl; split_and!; try done;
    try (by apply prefix_app_r); simplify_map_eq; auto.
Qed.

Lemma after_upload_section_consistent uploaded_file clicked w :
  extract_cache_consistent env w ->
  extract_cache_consistent env (after_upload_section env uploaded_file clicked w).
Proof.
  intros Hw. destruct uploaded_file as [f|]; [|done]. cbn.
  assert (extract_cache_consistent env (after_upload f w)) as Hu.
  { unfold extract_cache_consistent.
    by destruct (after_upload_frame f w) as (-> & _). }
  destruct clicked; [|done].
  unfold after_analyze_flow.
  destruct (extract_step_consistent f _ Hu) as (_ & He & _).
  destruct (extract_step env f (after_upload f w)) as [full_text we]. cbn [snd] in He.
  destruct (_ && _); [|done].
  pose proof (analysis_step_frame full_text we) as (_ & Hc & _).
  destruct (analysis_step env full_text we) as [r wa]. cbn [snd] in Hc.
  unfold extract_cache_consistent. world_simpl. by rewrite Hc.
Qed.

Lemma after_upload_section_result_cached uploaded_file clicked w :
  result_is_cached w ->
  result_is_cached (after_upload_section env uploaded_file clicked w).
Proof.
  intros Hw. destruct uploaded_file as [f|]; [|done]. cbn.
  assert (result_is_cached (after_upload f w)) as Hu.
  { unfold result_is_cached.
    destruct (after_upload_frame f w) as (_ & -> & _ & _ & _ & [-> | ->]); done. }
  destruct clicked; [|done].
  unfold after_analyze_flow.
  destruct (extract_step env f (after_upload f w)) as [full_text we].
  destruct (_ && _).
  - pose proof (analysis_step_frame full_text we) as (_ & _ & _ & _ & Hc).
    destruct (analysis_step env full_text we) as [r wa]. cbn [snd] in Hc.
    unfold result_is_cached. by world_simpl.
  - unfold result_is_cached, stored_result. world_simpl. by simplify_map_eq.
Qed.

Lemma reachable_invariants w :
  reachable env w -> extract_cache_consistent env w /\ result_is_cached w.
Proof.
  induction 1 as [|w i Hw [IHc IHr]].
  - split.
    + intros key entry. cbn. by rewrite lookup_empty.
    + unfold result_is_cached, stored_result. cbn. by rewrite lookup_empty.
  - destruct (configured_key env) as [key|] eqn:Hkey.
    + destruct (step_configured key i w Hkey) as (es & ->). cbn zeta.
      assert (extract_cache_consistent env (world_before_upload key w)) as Hc by done.
      assert (result_is_cached (world_before_upload key w)) as Hr.
      { unfold result_is_cached. by rewrite stored_result_init_keys. }
      split.
      * by apply (after_upload_section_consistent (fst i) (snd i)) in Hc.
      * by apply (after_upload_section_result_cached (fst i) (snd i)) in Hr.
    + by rewrite step_unconfigured.
Qed.

Lemma extracted_text_eq f :
  extracted_text env f = Return (fst (extraction_outcome env f)).
Proof. unfold extracted_text. by rewrite extract_body_eq. Qed.

Lemma extract_cached_reachable f w :
  reachable env w ->
  exists w', extract_text_from_pdf env (Some f) w = (Return (fst (extraction_outcome env f)), w') /\
             forall e, e ∈ snd (extraction_outcome env f) -> e ∈ page w'.
Proof.
  intros Hw. apply reachable_invariants in Hw as [Hc _].
  rewrite extract_cached_eq.
  destruct (extract_step_consistent f w Hc) as (-> & _ & Hpage). eauto.
Qed.

(** ** The Document Loader *)

Lemma pages_text_all_read texts full_text :
  pages_text (map PageText texts) full_text =
  Ok (full_text +:+ concat_strings (map (fun t => t +:+ nl) (pages_with_text texts))).
Proof.
  revert full_text. induction texts as [|[t|] texts IH]; intros full_text; cbn.
  - by rewrite string_app_nil_r.
  - unfold pages_with_text in *. cbn. destruct (str_truthy t); [|apply IH].
    rewrite IH. cbn. by rewrite !string_app_assoc.
  - apply IH.
Qed.

Lemma pages_text_page_raises texts e rest full_text :
  pages_text (map PageText texts ++ PageRaises e :: rest) full_text = Err e.
Proof.
  revert full_text. induction texts as [|[t|] texts IH]; intros full_text; cbn; [done| |done].
  by destruct (str_truthy t).
Qed.

Lemma pages_with_text_all ts :
  Forall (fun t => t <> EmptyString) ts -> pages_with_text (map Some ts) = ts.
Proof.
  unfold pages_with_text. induction 1 as [|t ts Ht _ IH]; [done|].
  cbn. destruct t; [done|]. cbn. by rewrite IH.
Qed.

(** C3: the text returned for a document all of whose pages are read is the
    concatenation, in page order, of the text of each page that yields text
    followed by a newline; a page whose text is [None] or empty contributes
    nothing.  In particular, when every page yields text, it is the
    concatenation of every page's text followed by a newline. *)
Theorem extracted_text_concatenates_pages f texts w :
  reachable env w ->
  pdfplumber_open env (getvalue f) = Opened (map PageText texts) ->
  fst (extract_text_from_pdf env (Some f) w) =
    Return (concat_strings (map (fun t => t +:+ nl) (pages_with_text texts))) /\
  (forall ts, texts = map Some ts -> Forall (fun t => t <> EmptyString) ts ->
     fst (extract_text_from_pdf env (Some f) w) =
       Return (concat_strings (map (fun t => t +:+ nl) ts))).
Proof.
  intros Hw Hopen.
  destruct (extract_cached_reachable f w Hw) as (w' & -> & _). cbn [fst].
  assert (fst (extraction_outcome env f) =
          concat_strings (map (fun t => t +:+ nl) (pages_with_text texts))) as ->.
  { unfold extraction_outcome. by rewrite Hopen, pages_text_all_read. }
  split; [done|]. intros ts -> Hts. by rewrite pages_with_text_all.
Qed.

Lemma extract_text_from_pdf_returns uploaded_file w :
  exists t w', extract_text_from_pdf env uploaded_file w = (Return t, w').
Proof.
  destruct uploaded_file as [f|].
  - rewrite extract_cached_eq. eauto.
  - unfold extract_text_from_pdf, cache_data.
    destruct (extract_cache w !! _) as [[value messages]|]; [|by eauto].
    unfold bind. rewrite render_all_eq. eauto.
Qed.

(** C6: the Document Loader never raises; when pdfplumber fails on the
    file, whether on opening it or on one of its pages, the error is shown
    and the empty string is returned; a document without pages gives the
    empty string as well. *)
Theorem extraction_failure_gives_empty_text f w :
  reachable env w ->
  (forall uploaded_file w0,
     exists t w', extract_text_from_pdf env uploaded_file w0 = (Return t, w')) /\
  (forall e, extraction_failure env f e ->
     exists w', extract_text_from_pdf env (Some f) w = (Return EmptyString, w') /\
                extraction_error e ∈ page w') /\
  (pdfplumber_open env (getvalue f) = Opened [] ->
     fst (extract_text_from_pdf env (Some f) w) = Return EmptyString).
Proof.
  intros Hw. split_and!.
  - apply extract_text_from_pdf_returns.
  - intros e Hfail.
    destruct (extract_cached_reachable f w Hw) as (w' & -> & Hpage).
    assert (extraction_outcome env f = (EmptyString, [extraction_error e])) as Ho.
    { unfold extraction_outcome.
      destruct Hfail as [->|texts rest ->]; [done|]. by rewrite pages_text_page_raises. }
    rewrite Ho in *. exists w'. split; [done|]. apply Hpage. by apply list_elem_of_singleton.
  - intros Hopen.
    destruct (extract_cached_reachable f w Hw) as (w' & -> & _).
    unfold extraction_outcome. by rewrite Hopen.
Qed.

(** ** The analyze action *)

(** The world in which line 164 tests the text, when the extraction store
    is consistent. *)
Lemma step_analyze key f w :
  extract_cache_consistent env w ->
  configured_key env = Some key ->
  exists we es,
    let full_text := fst (extraction_outcome env f) in
    step env w (Some f, true) =
      (let w2 :=
         if str_truthy full_text && (100 <? len full_text)
         then
           let wa := snd (analysis_step env full_text we) in
           with_session_state
             (<["analysis_result" := fst (analysis_step env full_text we)]>
                (session_state wa)) wa
         else
           let wi := with_page (page we ++ [insufficient_text_error]) we in
           with_session_state (<["analysis_result" := PyNone]> (session_state wi)) wi
       in with_page (page w2 ++ es) w2) /\
    remote_calls we = remote_calls w /\
    analysis_cache we = analysis_cache w.
Proof.
  intros Hc Hkey.
  destruct (step_configured key (Some f, true) w Hkey) as (es & ->).
  cbn [fst snd after_upload_section]. unfold after_analyze_flow.
  set (wu := after_upload f (world_before_upload key w)).
  assert (extract_cache_consistent env wu) as Hu.
  { unfold extract_cache_consistent, wu.
    by destruct (after_upload_frame f (world_before_upload key w)) as (-> & _). }
  destruct (extract_step_consistent f wu Hu) as (Ht & _ & _).
  destruct (extract_step_frame f wu) as (_ & Ha & Hr & _).
  destruct (after_upload_frame f (world_before_upload key w)) as (_ & Ha' & Hr' & _).
  fold wu in Ha', Hr'.
  destruct (extract_step env f wu) as [full_text we]. cbn [fst snd] in *. subst full_text.
  exists we, es. split_and!.
  - cbn zeta. destruct (_ && _); [|done]. by destruct (analysis_step env _ we).
  - by rewrite Hr, Hr'.
  - by rewrite Ha, Ha'.
Qed.

Lemma insufficient_text_test t :
  len t <= 100 -> str_truthy t && (100 <? len t) = false.
Proof. intros H. apply andb_false_iff. right. by apply Nat.ltb_ge. Qed.

Lemma reachable_consistent w : reachable env w -> extract_cache_consistent env w.
Proof. intros Hw. by apply reachable_invariants in Hw as [Hc _]. Qed.

(** C4: an analyze action on a file whose extracted text has at most 100
    characters (code points; the empty text included) does not reach the
    analysis function: no request is sent to the remote model, the analysis
    store is left as it was, and the error of line 169 is shown.  This holds
    in every world whose extraction store is consistent, as it is in every
    reachable world, whatever the analysis store and the session hold. *)
Theorem insufficient_text_makes_no_remote_call key f t w :
  extract_cache_consistent env w ->
  configured_key env = Some key ->
  extracted_text env f = Return t ->
  len t <= 100 ->
  let w' := step env w (Some f, true) in
  remote_calls w' = remote_calls w /\
  analysis_cache w' = analysis_cache w /\
  insufficient_text_error ∈ page w'.
Proof.
  intros Hw Hkey Ht Hlen. rewrite extracted_text_eq in Ht. injection Ht as Ht.
  destruct (step_analyze key f w Hw Hkey) as (we & es & Hstep & Hr & Ha).
  cbn zeta in *. rewrite Hstep, Ht, (insufficient_text_test t Hlen). world_simpl.
  split_and!; [done|done|]. rewrite !elem_of_app, list_elem_of_singleton. auto.
Qed.

(** C10: an analyze action on a file whose extracted text fails the test of
    line 164 sets the stored result to [None], whatever result the session
    held before the click and whether or not line 159 ran: this holds in
    every world whose extraction store is consistent, as it is in every
    reachable world. *)
Theorem insufficient_text_clears_result key f t w :
  extract_cache_consistent env w ->
  configured_key env = Some key ->
  extracted_text env f = Return t ->
  len t <= 100 ->
  session_state (step env w (Some f, true)) !! "analysis_result" = Some PyNone /\
  stored_result (step env w (Some f, true)) = PyNone.
Proof.
  intros Hw Hkey Ht Hlen. rewrite extracted_text_eq in Ht. injection Ht as Ht.
  destruct (step_analyze key f w Hw Hkey) as (we & es & Hstep & _).
  cbn zeta in *. unfold stored_result.
  rewrite Hstep, Ht, (insufficient_text_test t Hlen). world_simpl.
  by rewrite lookup_insert_eq.
Qed.

(** Requests are made by clicks on a long enough text with an empty
    analysis store, and by nothing else. *)
Lemma step_remote_calls i w :
  (remote_calls (step env w i) = remote_calls w /\
   analysis_cache (step env w i) = analysis_cache w) \/
  exists key f text o,
    configured_key env = Some key /\ i = (Some f, true) /\
    analysis_cache w !! [] = None /\
    o = analysis_outcome env (length (remote_calls w)) text /\
    remote_calls (step env w i) = remote_calls w ++ [build_prompt text] /\
    analysis_cache (step env w i) = <[[] := o]> (analysis_cache w) /\
    session_state (step env w i) !! "analysis_result" = Some (fst o) /\
    (forall e, e ∈ snd o -> e ∈ page (step env w i)).
Proof.
  destruct (configured_key env) as [key|] eqn:Hkey; [|left; by rewrite step_unconfigured].
  destruct (step_configured key i w Hkey) as (es & ->). cbn zeta. world_simpl.
  destruct i as [[f|] clicked]; [|by left]. cbn [fst snd after_upload_section].
  set (wu := after_upload f (world_before_upload key w)).
  destruct (after_upload_frame f (world_before_upload key w)) as (_ & Ha' & Hr' & _).
  fold wu in Ha', Hr'. world_simpl.
  destruct clicked; [|by left]. unfold after_analyze_flow.
  destruct (extract_step_frame f wu) as (_ & Ha & Hr & _).
  destruct (extract_step env f wu) as [full_text we] eqn:Hstep. cbn [fst snd] in *.
  destruct (_ && _).
  - unfold analysis_step. rewrite Ha, Ha', Hr, Hr'.
    destruct (analysis_cache w !! []) as [[value messages]|] eqn:Hlookup.
    + left. world_simpl. by rewrite Ha, Ha', Hr, Hr'.
    + right. exists key, f, full_text, (analysis_outcome env (length (remote_calls w)) full_text).
      world_simpl. rewrite ?Ha, ?Ha', ?Hr, ?Hr'. split_and!; try done.
      * by rewrite lookup_insert_eq.
      * intros e He. rewrite !elem_of_app. left. right. by apply elem_of_cons; right.
  - left. world_simpl. by rewrite Ha, Ha', Hr, Hr'.
Qed.

Lemma analysis_outcome_failure n text e :
  remote_failure env n (build_prompt text) e ->
  analysis_outcome env n text = (PyNone, [analysis_error e]).
Proof.
  unfold analysis_outcome. intros [->|response_text -> Hjson]; [done|]. by rewrite Hjson.
Qed.


(** In a session that never clears the stores, a request is sent only while
    nothing is stored: there the [None] of line 167 replaces a [None]. *)
Lemma failed_request_in_session_finds_no_result i w prompt e :
  reachable env w ->
  remote_calls (step env w i) = remote_calls w ++ [prompt] ->
  remote_failure env (length (remote_calls w)) prompt e ->
  stored_result w = PyNone.
Proof.
  intros Hw Hcalls Hfail.
  destruct (step_remote_calls i w) as
    [[Hsame _]|(key & f & text & o & Hkey & -> & Hmiss & _)].
  { rewrite Hsame in Hcalls. apply (f_equal length) in Hcalls.
    rewrite length_app in Hcalls. cbn in Hcalls. lia. }
  apply reachable_invariants in Hw as [_ Hcached].
  unfold result_is_cached in Hcached. rewrite Hmiss in Hcached.
  destruct (stored_result w); try done; by destruct Hcached as [entry ?].
Qed.

(** ** The analysis store *)

(** Once the analysis store holds an entry, no execution sends a request,
    whatever text is analysed. *)
Lemma analysis_store_hit_makes_no_request i w :
  is_Some (analysis_cache w !! []) ->
  remote_calls (step env w i) = remote_calls w /\
  analysis_cache (step env w i) = analysis_cache w.
Proof.
  intros [entry Hentry].
  destruct (step_remote_calls i w) as [?|(? & ? & ? & ? & _ & _ & Hmiss & _)]; [done|].
  congruence.
Qed.

(** A session sends at most one request to the remote model. *)
Lemma at_most_one_request w :
  reachable env w -> length (remote_calls w) <= 1.
Proof.
  intros Hw.
  assert ((analysis_cache w !! [] = None /\ remote_calls w = []) \/
          (is_Some (analysis_cache w !! []) /\ length (remote_calls w) = 1)) as [[_ ->]|[_ ->]];
    [|cbn; lia|lia].
  induction Hw as [|w i Hw IH]; [left; split; [apply lookup_empty|done]|].
  destruct IH as [[Hnone Hcalls]|[Hsome Hcalls]].
  - destruct (step_remote_calls i w)
      as [[-> ->]|(? & ? & text & o & _ & _ & _ & _ & -> & -> & _)]; [by left|].
    right. rewrite lookup_insert_eq, Hcalls. eauto.
  - right. by destruct (analysis_store_hit_makes_no_request i w Hsome) as [-> ->].
Qed.

(** ** Uploads *)

Lemma py_ne_str_true v s : v <> PyStr s -> py_ne_str v s = true.
Proof.
  destruct v as [| | | |s'| |]; try done. intros Hne. cbn.
  apply negb_true_iff, String.eqb_neq. congruence.
Qed.

Lemma py_ne_str_false v s : py_ne_str v s = false -> v = PyStr s.
Proof.
  destruct v as [| | | |s'| |]; try done. cbn. intros H.
  apply negb_false_iff, String.eqb_eq in H. by subst.
Qed.

Lemma init_keys_id ss :
  is_Some (ss !! "analysis_result") -> is_Some (ss !! "last_file_name") ->
  init_keys ss = ss.
Proof.
  intros Hr Hn. unfold init_keys. cbn zeta.
  rewrite (bool_decide_eq_true_2 _ Hr). by rewrite (bool_decide_eq_true_2 _ Hn).
Qed.

(** After lines 158-160 the stored identity is the name of the file. *)
Lemma after_handle_upload_identity f w :
  is_Some (session_state w !! "last_file_name") ->
  session_state (after_handle_upload f w) !! "last_file_name" = Some (PyStr (name f)).
Proof.
  intros [v Hv]. unfold after_handle_upload. rewrite Hv. cbn.
  destruct (py_ne_str v (name f)) eqn:Hne; world_simpl.
  - by rewrite lookup_insert_eq.
  - apply py_ne_str_false in Hne. by subst.
Qed.

Lemma after_handle_upload_cleared f w :
  session_state w !! "last_file_name" <> Some (PyStr (name f)) ->
  after_handle_upload f w =
  with_session_state
    (<["last_file_name" := PyStr (name f)]>
       (<["analysis_result" := PyNone]> (session_state w))) w.
Proof.
  intros Hne. unfold after_handle_upload. rewrite py_ne_str_true; [done|].
  destruct (session_state w !! "last_file_name"); cbn; congruence.
Qed.

(** C5: when the file in the uploader has another identity than the stored
    one, the execution triggered by the upload clears the stored result and
    stores the new identity, without any request to the model; and in every
    execution, lines 163-170 start from a world in which this has been
    done. *)
Theorem new_upload_clears_result_before_analysis key f w :
  configured_key env = Some key ->
  session_state w !! "last_file_name" <> Some (PyStr (name f)) ->
  (let w' := step env w (Some f, false) in
   session_state w' !! "analysis_result" = Some PyNone /\
   session_state w' !! "last_file_name" = Some (PyStr (name f)) /\
   remote_calls w' = remote_calls w) /\
  (exists w1,
     session_state w1 !! "analysis_result" = Some PyNone /\
     session_state w1 !! "last_file_name" = Some (PyStr (name f)) /\
     remote_calls w1 = remote_calls w /\
     exists es, step env w (Some f, true) =
                with_page (page (snd (analyze_flow env f w1)) ++ es)
                  (snd (analyze_flow env f w1))).
Proof.
  intros Hkey Hne.
  assert (session_state (world_before_upload key w) !! "last_file_name"
          <> Some (PyStr (name f))) as Hne'.
  { world_simpl. rewrite init_keys_lookup_name.
    destruct (session_state w !! "last_file_name"); cbn; congruence. }
  pose proof (after_handle_upload_cleared f _ Hne') as Hclear.
  split.
  - destruct (step_configured key (Some f, false) w Hkey) as (es & ->).
    cbn [fst snd after_upload_section]. unfold after_upload. rewrite Hclear.
    world_simpl. by simplify_map_eq.
  - exists (after_upload f (world_before_upload key w)).
    unfold after_upload at 1 2 3. rewrite Hclear. world_simpl.
    split_and!; [by simplify_map_eq..|done|].
    destruct (step_configured key (Some f, true) w Hkey) as (es & ->).
    cbn [fst snd after_upload_section]. rewrite analyze_flow_eq. by exists es.
Qed.

(** After an execution with a file in the uploader, the session state holds
    both keys and the stored identity is the name of that file. *)
Lemma session_after_upload key f clicked w :
  configured_key env = Some key ->
  let ss := session_state (step env w (Some f, clicked)) in
  ss !! "last_file_name" = Some (PyStr (name f)) /\ is_Some (ss !! "analysis_result").
Proof.
  intros Hkey. destruct (step_configured key (Some f, clicked) w Hkey) as (es & ->).
  cbn [fst snd after_upload_section]. cbn zeta. world_simpl.
  set (w0 := world_before_upload key w).
  assert (session_state (after_upload f w0) !! "last_file_name" = Some (PyStr (name f))
          /\ is_Some (session_state (after_upload f w0) !! "analysis_result")) as [Hn Hr].
  { unfold after_upload. world_simpl. split.
    - apply after_handle_upload_identity. unfold w0. world_simpl.
      rewrite init_keys_lookup_name. eauto.
    - unfold after_handle_upload. destruct (py_ne_str _ _); unfold w0; world_simpl.
      + simplify_map_eq. eauto.
      + rewrite init_keys_lookup_result. eauto. }
  destruct clicked; [|done]. unfold after_analyze_flow.
  destruct (extract_step_frame f (after_upload f w0)) as (Hs & _).
  destruct (extract_step env f (after_upload f w0)) as [full_text we]. cbn [snd] in Hs.
  destruct (_ && _).
  - destruct (analysis_step_frame full_text we) as (Hs' & _).
    destruct (analysis_step env full_text we) as [r wa]. cbn [snd] in Hs'. world_simpl.
    rewrite Hs', Hs. rewrite lookup_insert_ne by done. rewrite lookup_insert_eq. eauto.
  - world_simpl. rewrite Hs. rewrite lookup_insert_ne by done. rewrite lookup_insert_eq. eauto.
Qed.

(** C9: the identity of an upload is the name of the file.  When a file is
    uploaded after a file of the same name and other content, the execution
    triggered by the upload leaves the session state, and so the stored
    AnalysisResult, as it was. *)
Theorem same_name_upload_keeps_result key f1 f2 clicked w :
  configured_key env = Some key ->
  name f1 = name f2 ->
  getvalue f1 <> getvalue f2 ->
  let w1 := step env w (Some f1, clicked) in
  let w2 := step env w1 (Some f2, false) in
  session_state w2 = session_state w1 /\ stored_result w2 = stored_result w1.
Proof.
  intros Hkey Hname _. cbn zeta.
  destruct (session_after_upload key f1 clicked w Hkey) as [Hn Hr].
  set (w1 := step env w (Some f1, clicked)) in *. cbn zeta in Hn, Hr.
  assert (session_state (step env w1 (Some f2, false)) = session_state w1) as Hss.
  { destruct (step_configured key (Some f2, false) w1 Hkey) as (es & ->).
    cbn [fst snd after_upload_section]. unfold after_upload, after_handle_upload.
    world_simpl. rewrite init_keys_id by (rewrite ?Hn; eauto).
    rewrite Hn, Hname. cbn. rewrite String.eqb_refl. cbn.
    apply init_keys_id; rewrite ?Hn; eauto. }
  split; [done|]. unfold stored_result. by rewrite Hss.
Qed.

(** ** Startup *)

Lemma session_unconfigured inputs w :
  configured_key env = None ->
  inputs <> [] ->
  session env inputs w = with_page configuration_error_page w.
Proof.
  intros Hkey. revert w. induction inputs as [|i inputs IH]; intros w Hne; [done|].
  change (session env (i :: inputs) w) with (session env inputs (step env w i)).
  rewrite step_unconfigured by done.
  destruct inputs as [|i' inputs]; [done|]. by rewrite IH.
Qed.

(** C7: without the API key in the secrets, every execution of the script
    stops at line 43: the page holds the page configuration, the style
    sheet and the two messages, and neither the uploader nor the button;
    the stores are left as they were, and in a whole session no file is
    opened and no request is sent. *)
Theorem missing_api_key_halts_startup uploaded_file clicked w :
  configured_key env = None ->
  rerun env uploaded_file clicked w = (Stop, with_page configuration_error_page w) /\
  (forall inputs,
     pdf_opens (session env inputs w) = pdf_opens w /\
     remote_calls (session env inputs w) = remote_calls w /\
     session_state (session env inputs w) = session_state w).
Proof.
  intros Hkey. split; [by apply rerun_unconfigured|].
  intros inputs. destruct inputs as [|i inputs]; [done|].
  by rewrite session_unconfigured.
Qed.

(** ** The Prompt Builder *)

(** C8: the prompt is one string, a function of the extracted text alone,
    in which the text stands verbatim between two [---] lines, after the
    heading that announces the text to analyse; and this string is what the
    body of the analysis function sends to the model. *)
Theorem prompt_embeds_text_between_markers :
  exists before after,
    (forall text,
       build_prompt text =
       before +:+ "    **Financial Text to Analyze**:" +:+ nl +:+
       "    ---" +:+ nl +:+ "    " +:+ text +:+ " " +:+ nl +:+ "    ---" +:+ nl +:+ after) /\
    (forall text w,
       remote_calls (snd (analyze_financial_text_with_gemini_body env text w)) =
       remote_calls w ++ [build_prompt text]).
Proof.
  exists (join_lines (take 38 prompt_head_lines) +:+ nl),
         (join_lines (drop 2 prompt_tail_lines)).
  split.
  - intros text. unfold build_prompt.
    assert (prompt_head =
            (join_lines (take 38 prompt_head_lines) +:+ nl) +:+
            ("    **Financial Text to Analyze**:" +:+ nl +:+ "    ---" +:+ nl +:+ "    ")) as ->
      by (vm_compute; reflexivity).
    assert (prompt_tail =
            (" " +:+ nl +:+ "    ---" +:+ nl) +:+ join_lines (drop 2 prompt_tail_lines)) as ->
      by (vm_compute; reflexivity).
    by rewrite !string_app_assoc.
  - intros text w. by rewrite analyze_body_eq.
Qed.

End Properties.

(** ** The sample session *)

(** C1: the analysis store is not keyed by the extracted text.  In the
    sample session two documents with different texts, both long enough,
    are analysed one after the other: a single request is sent, for the
    first text, and the second analysis stores the result of the first
    document, although a request for the second text would have returned
    another result. *)
Theorem second_document_gets_first_analysis :
  let w2 :=
    session sample_env [(Some globex_report, false); (Some globex_report, true)]
      acme_analysed in
  extracted_text sample_env acme_report = Return acme_text /\
  extracted_text sample_env globex_report = Return globex_text /\
  acme_text <> globex_text /\
  100 < len acme_text /\ 100 < len globex_text /\
  remote_calls acme_analysed = [build_prompt acme_text] /\
  remote_calls w2 = [build_prompt acme_text] /\
  stored_result acme_analysed = acme_analysis /\
  stored_result w2 = acme_analysis /\
  fst (analyze_financial_text_with_gemini_body sample_env globex_text acme_analysed) =
    Return globex_analysis.
Proof.
  cbn zeta. split_and!; try (vm_compute; reflexivity).
  - intros H. discriminate H.
  - vm_compute. lia.
  - vm_compute. lia.
Qed.

Lemma reachable_acme_analysed : reachable sample_env acme_analysed.
Proof. unfold acme_analysed. cbn. do 2 apply reachable_step. apply reachable_initial. Qed.

(** The example of the specification: a document of two pages. *)
Lemma extracted_text_concatenates_pages_witness :
  fst (extract_text_from_pdf sample_env (Some short_report) acme_analysed) =
  Return ("Revenue: 100" +:+ nl +:+ "Net Income: 10" +:+ nl).
Proof.
  apply (extracted_text_concatenates_pages sample_env short_report short_report_pages
           acme_analysed).
  - apply reachable_acme_analysed.
  - reflexivity.
Defined.

Lemma extraction_failure_gives_empty_text_witness :
  exists w',
    extract_text_from_pdf sample_env (Some truncated_report) initial_world =
      (Return EmptyString, w') /\
    extraction_error unexpected_eof ∈ page w'.
Proof.
  destruct (extraction_failure_gives_empty_text sample_env truncated_report initial_world)
    as (_ & Hfail & _).
  - apply reachable_initial.
  - apply Hfail. apply (page_failure _ _ _ [Some "Revenue: 100"] []). reflexivity.
Defined.

Lemma initial_world_consistent env : extract_cache_consistent env initial_world.
Proof. apply reachable_consistent, reachable_initial. Qed.

Lemma acme_analysed_consistent : extract_cache_consistent sample_env acme_analysed.
Proof. apply reachable_consistent, reachable_acme_analysed. Qed.

(** A text of 99 code points and 111 bytes, in a world whose analysis store
    is empty. *)
Lemma insufficient_text_makes_no_remote_call_witness :
  let w' := step sample_env initial_world (Some bilan_report, true) in
  len bilan_text = 99 /\
  remote_calls w' = remote_calls initial_world /\
  analysis_cache w' = analysis_cache initial_world /\
  insufficient_text_error ∈ page w'.
Proof.
  split; [vm_compute; reflexivity|].
  apply (insufficient_text_makes_no_remote_call sample_env "sample-key" bilan_report
           bilan_text initial_world).
  - apply initial_world_consistent.
  - reflexivity.
  - vm_compute. reflexivity.
  - vm_compute. lia.
Defined.

(** A click on a short note that has the name of the analysed file: the
    execution without the click keeps the stored result, so that line 159
    does not run, and the click clears it at line 170. *)
Lemma insufficient_text_clears_result_witness :
  stored_result acme_analysed = acme_analysis /\
  stored_result (step sample_env acme_analysed (Some acme_note, false)) = acme_analysis /\
  session_state (step sample_env acme_analysed (Some acme_note, true))
    !! "analysis_result" = Some PyNone /\
  stored_result (step sample_env acme_analysed (Some acme_note, true)) = PyNone.
Proof.
  split; [vm_compute; reflexivity|]. split; [vm_compute; reflexivity|].
  apply (insufficient_text_clears_result sample_env "sample-key" acme_note
           ("Revenue: 100" +:+ nl) acme_analysed).
  - apply acme_analysed_consistent.
  - reflexivity.
  - vm_compute. reflexivity.
  - vm_compute. lia.
Defined.



Lemma new_upload_clears_result_before_analysis_witness :
  let w' := step sample_env acme_analysed (Some globex_report, false) in
  stored_result acme_analysed = acme_analysis /\
  session_state w' !! "analysis_result" = Some PyNone /\
  session_state w' !! "last_file_name" = Some (PyStr "globex.pdf") /\
  remote_calls w' = remote_calls acme_analysed.
Proof.
  split; [vm_compute; reflexivity|].
  apply (new_upload_clears_result_before_analysis sample_env "sample-key" globex_report
           acme_analysed).
  - reflexivity.
  - vm_compute. intros H. discriminate H.
Defined.

Lemma same_name_upload_keeps_result_witness :
  let w1 := step sample_env initial_world (Some acme_report, true) in
  let w2 := step sample_env w1 (Some revised_acme_report, false) in
  stored_result w1 = acme_analysis /\
  session_state w2 = session_state w1 /\ stored_result w2 = stored_result w1.
Proof.
  split; [vm_compute; reflexivity|].
  apply (same_name_upload_keeps_result sample_env "sample-key" acme_report
           revised_acme_report true initial_world).
  - reflexivity.
  - reflexivity.
  - vm_compute. intros H. discriminate H.
Defined.

Lemma missing_api_key_halts_startup_witness :
  rerun unconfigured_env (Some acme_report) true initial_world =
  (Stop, with_page configuration_error_page initial_world).
Proof.
  apply (missing_api_key_halts_startup unconfigured_env (Some acme_report) true
           initial_world).
  reflexivity.
Defined.

(** * Further properties of the script *)

Section Executions.

Variable env : Env.

Ltac stores_simpl :=
  cbn [session_state extract_cache analysis_cache api_key pdf_opens remote_calls page
       with_session_state with_extract_cache with_analysis_cache with_api_key
       with_pdf_opens with_remote_calls with_page world_before_upload fst snd] in *.

(** ** What an execution leaves alone *)

Lemma after_upload_pdf_opens f w : pdf_opens (after_upload f w) = pdf_opens w.
Proof. unfold after_upload, after_handle_upload. by destruct (py_ne_str _ _). Qed.

(** X1: an execution that is not triggered by the button, whatever the
    uploader holds, opens no file, sends no request and leaves both stores
    of [@st.cache_data] as they were. *)
Theorem upload_alone_runs_nothing uploaded_file w :
  let w' := step env w (uploaded_file, false) in
  pdf_opens w' = pdf_opens w /\ remote_calls w' = remote_calls w /\
  extract_cache w' = extract_cache w /\ analysis_cache w' = analysis_cache w.
Proof.
  cbn zeta. destruct (configured_key env) as [key|] eqn:Hkey.
  - destruct (step_configured env key (uploaded_file, false) w Hkey) as (es & ->).
    cbn [fst snd]. destruct uploaded_file as [f|]; [|done].
    cbn [after_upload_section]. stores_simpl.
    destruct (after_upload_frame f (world_before_upload key w)) as (-> & -> & -> & _).
    by rewrite after_upload_pdf_opens.
  - by rewrite step_unconfigured.
Qed.

(** X2: while the uploader is empty, an execution keeps the stored result
    and the stored identity, opens no file and sends no request, whether or
    not it is reported as a click. *)
Theorem empty_uploader_keeps_session clicked w :
  let w' := step env w (None, clicked) in
  stored_result w' = stored_result w /\
  default PyNone (session_state w' !! "last_file_name") =
    default PyNone (session_state w !! "last_file_name") /\
  pdf_opens w' = pdf_opens w /\ remote_calls w' = remote_calls w.
Proof.
  cbn zeta. destruct (configured_key env) as [key|] eqn:Hkey.
  - destruct (step_configured env key (None, clicked) w Hkey) as (es & ->).
    cbn [fst snd after_upload_section]. unfold stored_result. stores_simpl.
    rewrite init_keys_lookup_result, init_keys_lookup_name.
    by split_and!.
  - by rewrite step_unconfigured.
Qed.

(** ** The extraction store *)

Lemma analysis_step_pdf_opens text w :
  pdf_opens (snd (analysis_step env text w)) = pdf_opens w /\
  extract_cache (snd (analysis_step env text w)) = extract_cache w.
Proof. unfold analysis_step. by destruct (analysis_cache w !! []) as [[value messages]|]. Qed.

Lemma after_analyze_flow_split f w :
  after_analyze_flow env f w =
  after_text_test env (fst (extract_step env f w)) (snd (extract_step env f w)).
Proof. unfold after_analyze_flow, after_text_test. by destruct (extract_step env f w). Qed.

Lemma after_text_test_frame full_text we :
  pdf_opens (after_text_test env full_text we) = pdf_opens we /\
  extract_cache (after_text_test env full_text we) = extract_cache we.
Proof.
  unfold after_text_test. destruct (_ && _); [|done].
  pose proof (analysis_step_pdf_opens full_text we) as H.
  by destruct (analysis_step env full_text we).
Qed.

(** A click, by the world in which line 163 starts. *)
Lemma step_click key f w :
  configured_key env = Some key ->
  exists es,
    let wu := after_upload f (world_before_upload key w) in
    let w2 := after_text_test env (fst (extract_step env f wu)) (snd (extract_step env f wu)) in
    step env w (Some f, true) = with_page (page w2 ++ es) w2.
Proof.
  intros Hkey. destruct (step_configured env key (Some f, true) w Hkey) as (es & ->).
  exists es. cbn [fst snd after_upload_section]. by rewrite after_analyze_flow_split.
Qed.

Lemma after_upload_stores key f w :
  let wu := after_upload f (world_before_upload key w) in
  extract_cache wu = extract_cache w /\ pdf_opens wu = pdf_opens w /\
  analysis_cache wu = analysis_cache w /\ remote_calls wu = remote_calls w.
Proof.
  cbn zeta. rewrite after_upload_pdf_opens.
  by destruct (after_upload_frame f (world_before_upload key w)) as (-> & -> & -> & _).
Qed.

(** An execution opens a file exactly when it is a click on a file that the
    extraction store does not hold, and then the store gets its entry. *)
Lemma step_extraction i w :
  (pdf_opens (step env w i) = pdf_opens w /\
   extract_cache (step env w i) = extract_cache w) \/
  exists f,
    i = (Some f, true) /\
    extract_cache w !! hash_uploaded_file (Some f) = None /\
    pdf_opens (step env w i) = pdf_opens w ++ [getvalue f] /\
    extract_cache (step env w i) =
      <[hash_uploaded_file (Some f) := extraction_outcome env f]> (extract_cache w).
Proof.
  destruct (configured_key env) as [key|] eqn:Hkey; [|left; by rewrite step_unconfigured].
  destruct i as [[f|] clicked].
  2:{ left. by destruct (step_configured env key (None, clicked) w Hkey) as (es & ->). }
  destruct clicked.
  2:{ left. destruct (step_configured env key (Some f, false) w Hkey) as (es & ->).
      cbn [fst snd after_upload_section]. stores_simpl.
      by destruct (after_upload_stores key f w) as (-> & -> & _). }
  destruct (step_click key f w Hkey) as (es & ->). cbn zeta. stores_simpl.
  destruct (after_text_test_frame
              (fst (extract_step env f (after_upload f (world_before_upload key w))))
              (snd (extract_step env f (after_upload f (world_before_upload key w)))))
    as [-> ->].
  destruct (after_upload_stores key f w) as (Hc & Hp & _).
  unfold extract_step.
  destruct (extract_cache (after_upload f (world_before_upload key w)) !! _)
    as [[value messages]|] eqn:Hlookup; stores_simpl.
  - left. by rewrite Hc, Hp.
  - right. exists f. rewrite Hc in Hlookup. by rewrite Hc, Hp.
Qed.

Lemma step_click_fills_store key f w :
  configured_key env = Some key ->
  is_Some (extract_cache (step env w (Some f, true)) !! hash_uploaded_file (Some f)).
Proof.
  intros Hkey. destruct (step_click key f w Hkey) as (es & ->). cbn zeta. stores_simpl.
  destruct (after_text_test_frame
              (fst (extract_step env f (after_upload f (world_before_upload key w))))
              (snd (extract_step env f (after_upload f (world_before_upload key w)))))
    as [_ ->].
  unfold extract_step.
  destruct (extract_cache (after_upload f (world_before_upload key w)) !! _)
    as [[value messages]|] eqn:Hlookup; stores_simpl.
  - exists (value, messages). exact Hlookup.
  - rewrite lookup_insert_eq. eauto.
Qed.

Lemma extract_cache_persists i w key entry :
  extract_cache w !! key = Some entry -> extract_cache (step env w i) !! key = Some entry.
Proof.
  intros Hentry.
  destruct (step_extraction i w) as [[_ ->]|(f & _ & Hnone & _ & ->)]; [done|].
  rewrite lookup_insert_ne; [done|]. intros <-. congruence.
Qed.

Lemma extract_cache_persists_session inputs w key entry :
  extract_cache w !! key = Some entry ->
  extract_cache (session env inputs w) !! key = Some entry.
Proof.
  revert w. induction inputs as [|i inputs IH]; intros w Hentry; [done|].
  apply (IH (step env w i)). by apply extract_cache_persists.
Qed.

Lemma reachable_session inputs w :
  reachable env w -> reachable env (session env inputs w).
Proof.
  revert w. induction inputs as [|i inputs IH]; intros w Hw; [done|].
  apply (IH (step env w i)). by apply reachable_step.
Qed.

(** X3: a file is extracted once.  After a click on a file, however the
    session goes on, a later execution with the same file, clicked or not,
    opens no file: the text comes out of the extraction store. *)
Theorem extraction_runs_once_per_file key f inputs clicked w :
  configured_key env = Some key ->
  let w2 := session env inputs (step env w (Some f, true)) in
  pdf_opens (step env w2 (Some f, clicked)) = pdf_opens w2.
Proof.
  intros Hkey. cbn zeta.
  destruct (step_click_fills_store key f w Hkey) as [entry Hentry].
  apply (extract_cache_persists_session inputs) in Hentry.
  destruct (step_extraction (Some f, clicked) (session env inputs (step env w (Some f, true))))
    as [[-> _]|(f' & [= <- _] & Hnone & _)]; [done|congruence].
Qed.

(** X4: in every reachable world the number of files opened by pdfplumber is
    the number of entries of the extraction store: each entry was computed
    by one run of the body, and no run is lost. *)
Theorem one_extraction_per_store_entry w :
  reachable env w -> length (pdf_opens w) = size (extract_cache w).
Proof.
  induction 1 as [|w i Hw IH]; [done|].
  destruct (step_extraction i w) as [[-> ->]|(f & _ & Hnone & -> & ->)]; [done|].
  rewrite length_app, map_size_insert_None by done. cbn. lia.
Qed.

(** ** Clicks *)

(** A click in a reachable world: line 164 tests the text that the body
    computes for the file, in a world whose page shows what the body
    rendered. *)
Lemma step_click_reachable key f w :
  reachable env w ->
  configured_key env = Some key ->
  exists we es,
    let w2 := after_text_test env (fst (extraction_outcome env f)) we in
    step env w (Some f, true) = with_page (page w2 ++ es) w2 /\
    remote_calls we = remote_calls w /\
    analysis_cache we = analysis_cache w /\
    (forall e, e ∈ snd (extraction_outcome env f) -> e ∈ page we).
Proof.
  intros Hw Hkey. apply reachable_invariants in Hw as [Hc _].
  destruct (step_click key f w Hkey) as (es & Hstep). cbn zeta in Hstep.
  set (wu := after_upload f (world_before_upload key w)) in *.
  destruct (after_upload_stores key f w) as (Hec & _ & Hac & Hrc). fold wu in Hec, Hac, Hrc.
  assert (extract_cache_consistent env wu) as Hu.
  { unfold extract_cache_consistent. by rewrite Hec. }
  destruct (extract_step_consistent env f wu Hu) as (Ht & _ & Hpage).
  destruct (extract_step_frame env f wu) as (_ & Ha & Hr & _).
  exists (snd (extract_step env f wu)), es. cbn zeta.
  rewrite <- Ht. split_and!; [done|congruence|congruence|done].
Qed.

Lemma sufficient_text_test t :
  100 < len t -> str_truthy t && (100 <? len t) = true.
Proof.
  intros H. apply andb_true_iff. split; [|by apply Nat.ltb_lt].
  destruct t; [cbn in H; lia|done].
Qed.

(** The entry of the analysis store after a call: it holds the value that
    the call returns, and its elements are on the page. *)
Lemma analysis_step_entry text w :
  exists messages,
    analysis_cache (snd (analysis_step env text w)) !! [] =
      Some (fst (analysis_step env text w), messages) /\
    (forall e, e ∈ messages -> e ∈ page (snd (analysis_step env text w))).
Proof.
  unfold analysis_step.
  destruct (analysis_cache w !! []) as [[value messages]|] eqn:Hlookup; stores_simpl.
  - exists messages. split; [done|]. intros e He. apply elem_of_app. by right.
  - exists (snd (analysis_outcome env (length (remote_calls w)) text)).
    rewrite lookup_insert_eq. split; [by destruct (analysis_outcome env _ _)|].
    intros e He. apply elem_of_app. right. by apply elem_of_cons; right.
Qed.

(** A click on a file with enough text, in a reachable world: line 166 is
    reached, in a world that differs from the one before the click by the
    extraction alone. *)
Lemma step_click_sufficient key f t w :
  reachable env w ->
  configured_key env = Some key ->
  extracted_text env f = Return t ->
  100 < len t ->
  exists we es,
    let wa := snd (analysis_step env t we) in
    let w2 := with_session_state
                (<["analysis_result" := fst (analysis_step env t we)]> (session_state wa))
                wa in
    step env w (Some f, true) = with_page (page w2 ++ es) w2 /\
    remote_calls we = remote_calls w /\
    analysis_cache we = analysis_cache w.
Proof.
  intros Hw Hkey Ht Hlen. rewrite extracted_text_eq in Ht. injection Ht as Ht.
  destruct (step_click_reachable key f w Hw Hkey) as (we & es & Hstep & Hrc & Hac & _).
  exists we, es. cbn zeta in *. rewrite Hstep, Ht. unfold after_text_test.
  rewrite (sufficient_text_test t Hlen). by destruct (analysis_step env t we).
Qed.

(** X5: a click on a file whose extracted text has more than 100 characters
    always reaches the analysis function: afterwards the analysis store
    holds an entry, the stored result is the value of that entry, and the
    elements of the entry are on the page. *)
Theorem sufficient_text_reaches_analysis key f t w :
  reachable env w ->
  configured_key env = Some key ->
  extracted_text env f = Return t ->
  100 < len t ->
  let w' := step env w (Some f, true) in
  exists value messages,
    analysis_cache w' !! [] = Some (value, messages) /\
    session_state w' !! "analysis_result" = Some value /\
    (forall e, e ∈ messages -> e ∈ page w').
Proof.
  intros Hw Hkey Ht Hlen.
  destruct (step_click_sufficient key f t w Hw Hkey Ht Hlen) as (we & es & Hstep & _).
  cbn zeta in *. rewrite Hstep.
  destruct (analysis_step_entry t we) as (messages & Hentry & Hpage).
  exists (fst (analysis_step env t we)), messages. stores_simpl.
  split_and!; [done|by rewrite lookup_insert_eq|].
  intros e He. apply elem_of_app. left. by apply Hpage.
Qed.

(** X6: the first analysis of a session, when the service answers and the
    answer is JSON: one request is sent, with the prompt built from the
    extracted text, and the parsed value is stored in the session and in
    the analysis store. *)
Theorem first_analysis_stores_parsed_reply key f t reply value w :
  reachable env w ->
  configured_key env = Some key ->
  analysis_cache w !! [] = None ->
  extracted_text env f = Return t ->
  100 < len t ->
  generate_content env (length (remote_calls w)) (build_prompt t) = Ok reply ->
  json_loads env reply = Ok value ->
  let w' := step env w (Some f, true) in
  remote_calls w' = remote_calls w ++ [build_prompt t] /\
  session_state w' !! "analysis_result" = Some value /\
  analysis_cache w' !! [] = Some (value, []).
Proof.
  intros Hw Hkey Hmiss Ht Hlen Hreply Hjson. rewrite extracted_text_eq in Ht.
  injection Ht as Ht.
  destruct (step_click_reachable key f w Hw Hkey) as (we & es & Hstep & Hrc & Hac & _).
  cbn zeta in *. rewrite Hstep, Ht. unfold after_text_test, analysis_step.
  unfold CacheEntry in *. rewrite (sufficient_text_test t Hlen), Hac, Hmiss, Hrc.
  unfold analysis_outcome. rewrite Hreply, Hjson. stores_simpl.
  by rewrite !lookup_insert_eq.
Qed.

(** X7: a click on a file that pdfplumber fails on shows the extraction
    error and the error of line 169, sends no request and stores [None]. *)
Theorem failed_extraction_ends_the_click key f e w :
  reachable env w ->
  configured_key env = Some key ->
  extraction_failure env f e ->
  let w' := step env w (Some f, true) in
  extraction_error e ∈ page w' /\ insufficient_text_error ∈ page w' /\
  remote_calls w' = remote_calls w /\
  session_state w' !! "analysis_result" = Some PyNone.
Proof.
  intros Hw Hkey Hfail.
  assert (extraction_outcome env f = (EmptyString, [extraction_error e])) as Ho.
  { unfold extraction_outcome.
    destruct Hfail as [->|texts rest ->]; [done|]. by rewrite pages_text_page_raises. }
  destruct (step_click_reachable key f w Hw Hkey) as (we & es & Hstep & Hrc & _ & Hpage).
  cbn zeta in *. rewrite Hstep, Ho in *. unfold after_text_test. cbn [fst snd] in *.
  cbn [str_truthy andb]. stores_simpl. split_and!; [| |done|by rewrite lookup_insert_eq].
  - rewrite !elem_of_app. left. left. apply Hpage. by apply list_elem_of_singleton.
  - rewrite !elem_of_app, list_elem_of_singleton. auto.
Qed.

(** ** The analysis store along a session *)

Lemma analysis_store_persists_session inputs w :
  is_Some (analysis_cache w !! []) ->
  remote_calls (session env inputs w) = remote_calls w /\
  analysis_cache (session env inputs w) = analysis_cache w.
Proof.
  revert w. induction inputs as [|i inputs IH]; intros w Hsome; [done|].
  destruct (analysis_store_hit_makes_no_request env i w Hsome) as [Hr Ha].
  change (session env (i :: inputs) w) with (session env inputs (step env w i)).
  destruct (IH (step env w i)) as [-> ->]; [by rewrite Ha|done].
Qed.

(** X8: a failed request is never retried.  When an execution sends a
    request that fails, no later execution of the session sends a request;
    every later click on a file with enough text shows the same error again
    and stores [None]. *)
Theorem failed_analysis_is_never_retried i w prompt e inputs :
  reachable env w ->
  remote_calls (step env w i) = remote_calls w ++ [prompt] ->
  remote_failure env (length (remote_calls w)) prompt e ->
  let w2 := session env inputs (step env w i) in
  remote_calls w2 = remote_calls w ++ [prompt] /\
  (forall f t,
     extracted_text env f = Return t -> 100 < len t ->
     let w3 := step env w2 (Some f, true) in
     remote_calls w3 = remote_calls w2 /\
     analysis_error e ∈ page w3 /\
     session_state w3 !! "analysis_result" = Some PyNone).
Proof.
  intros Hw Hcalls Hfail. cbn zeta.
  destruct (step_remote_calls env i w) as
    [[Hsame _]|(key & f0 & text & o & Hkey & -> & _ & Ho & Hsent & Hcache & _)].
  { rewrite Hsame in Hcalls. apply (f_equal length) in Hcalls.
    rewrite length_app in Hcalls. cbn in Hcalls. lia. }
  rewrite Hsent in Hcalls. apply app_inj_1 in Hcalls as [_ [= <-]]; [|done].
  rewrite (analysis_outcome_failure env _ _ e Hfail) in Ho. subst o.
  set (w1 := step env w (Some f0, true)) in *.
  assert (analysis_cache w1 !! [] = Some (PyNone, [analysis_error e])) as Hentry
    by (by rewrite Hcache, lookup_insert_eq).
  destruct (analysis_store_persists_session inputs w1) as [Hr Ha]; [by eexists|].
  split; [by rewrite Hr|].
  intros f t Ht Hlen.
  assert (reachable env (session env inputs w1)) as Hw2
    by (apply reachable_session; by apply reachable_step).
  rewrite <- Ha in Hentry.
  destruct (analysis_store_hit_makes_no_request env (Some f, true) (session env inputs w1))
    as [Hr3 Ha3]; [by eexists|].
  destruct (step_click_sufficient key f t _ Hw2 Hkey Ht Hlen)
    as (we & es & Hstep & _ & Hac).
  destruct (analysis_step_entry t we) as (messages & Hentry3 & Hpage).
  cbn zeta in Hstep. rewrite Hstep in Ha3, Hr3 |- *. stores_simpl.
  rewrite Ha3, Hentry in Hentry3. injection Hentry3 as Hvalue <-.
  split_and!; [done| |by rewrite lookup_insert_eq, <- Hvalue].
  apply elem_of_app. left. apply Hpage. by apply list_elem_of_singleton.
Qed.

(** X9: in every reachable world the stored result, unless it is [None], is
    the value held by the one entry of the analysis store: whatever document
    was uploaded since, the result on display is the one that the analysis
    function returned when its store was filled. *)
Theorem stored_result_is_the_cached_analysis w :
  reachable env w ->
  stored_result w = PyNone \/
  exists messages, analysis_cache w !! [] = Some (stored_result w, messages).
Proof.
  induction 1 as [|w i Hw IH]; [by left|].
  destruct (configured_key env) as [key|] eqn:Hkey; [|by rewrite step_unconfigured].
  destruct i as [[f|] clicked].
  2:{ destruct (step_configured env key (None, clicked) w Hkey) as (es & ->).
      cbn [fst snd after_upload_section]. cbn zeta.
      change (stored_result (with_page ?p ?w0)) with (stored_result w0).
      rewrite stored_result_init_keys. by stores_simpl. }
  assert (stored_result (after_upload f (world_before_upload key w)) = PyNone \/
          exists messages,
            analysis_cache (after_upload f (world_before_upload key w)) !! [] =
            Some (stored_result (after_upload f (world_before_upload key w)), messages)) as Hu.
  { destruct (after_upload_frame f (world_before_upload key w))
      as (_ & -> & _ & _ & _ & [-> | ->]); [|by left].
    by rewrite stored_result_init_keys. }
  destruct clicked.
  - destruct (step_click key f w Hkey) as (es & ->). cbn zeta.
    set (wu := after_upload f (world_before_upload key w)) in *.
    destruct (extract_step_frame env f wu) as (Hs & Ha & _).
    destruct (extract_step env f wu) as [full_text we]. cbn [fst snd] in *.
    unfold after_text_test. destruct (_ && _).
    + destruct (analysis_step_entry full_text we) as (messages & Hentry & _).
      destruct (analysis_step env full_text we) as [value wa]. cbn [fst snd] in *.
      right. exists messages. unfold stored_result. stores_simpl.
      by rewrite lookup_insert_eq.
    + left. unfold stored_result. stores_simpl. by rewrite lookup_insert_eq.
  - destruct (step_configured env key (Some f, false) w Hkey) as (es & ->).
    by cbn [fst snd after_upload_section].
Qed.

(** ** The report *)

Lemma render_metrics_from i items w :
  render_metrics env i items w =
  (Return tt,
   with_page
     (page w ++
      concat (imap (fun j kv => [EnterColumn (i + j); Metric (fst kv) (py_str env (snd kv));
                                 ExitContainer])
                   items)) w).
Proof.
  revert i w. induction items as [|[key value] items IH]; intros i w.
  - cbn. by rewrite app_nil_r, with_page_id.
  - cbn [render_metrics].
    do 3 (erewrite (bind_return (render _)) by reflexivity).
    rewrite IH, imap_cons.
    rewrite (imap_ext (_ ∘ S)
               (fun j kv => [EnterColumn (S i + j); Metric (fst kv) (py_str env (snd kv));
                             ExitContainer])
               items)
      by (intros j kv _; cbn; by rewrite Nat.add_succ_r).
    stores_simpl. cbn [concat]. by rewrite Nat.add_0_r, <- !app_assoc.
Qed.

Lemma render_metrics_eq items w :
  render_metrics env 0 items w =
  (Return tt, with_page (page w ++ metric_elements env items) w).
Proof. by rewrite render_metrics_from. Qed.

Ltac run_display :=
  repeat first
    [ erewrite (bind_return (render _)) by reflexivity
    | erewrite (bind_return (lift (Ok _))) by reflexivity
    | erewrite (bind_return (session_get _)) by (unfold session_get; by rewrite_lookup)
    | erewrite (bind_return (render_metrics env 0 _)) by apply render_metrics_eq ]
with rewrite_lookup :=
  match goal with H : session_state _ !! _ = Some _ |- _ => rewrite H end.

Ltac close_page :=
  unfold render, ret; stores_simpl; cbn [with_page page];
  rewrite <- ?app_assoc; cbn [app]; reflexivity.

Ltac open_report Hres :=
  unfold display_results;
  erewrite (bind_return (session_get _)) by (unfold session_get; by rewrite Hres).

(** X10: the report of a stored [dict] with a non-empty [dict] of ratios:
    the separator, the two headings, the summary (or its placeholder), as
    many columns as there are ratios, each ratio as a metric in the column
    of its index, in the order of the [dict], with [str] of its value as
    the value shown, and the extracted data (or the placeholder) in the
    expander. *)
Theorem report_renders_each_ratio_in_its_column items ratios w :
  session_state w !! "analysis_result" = Some (PyDict items) ->
  dict_lookup items "key_ratios" = Some (PyDict ratios) ->
  ratios <> [] ->
  display_results env w =
  (Return tt,
   with_page
     (page w ++
      [ Markdown "---" false;
        Header "Financial Analysis Report";
        Subheader "📝 Executive Summary";
        InfoBox (default (PyStr "Summary could not be generated.")
                         (dict_lookup items "executive_summary"));
        Subheader "📊 Key Financial Ratios";
        Columns (length ratios) ] ++
      metric_elements env ratios ++
      [ EnterExpander "🔬 View Raw Extracted Data (JSON)";
        Json (default (PyDict [("error", PyStr "No data extracted.")])
                      (dict_lookup items "extracted_data"));
        ExitContainer ]) w).
Proof.
  intros Hres Hratios Hne. open_report Hres.
  assert (truthy (PyDict items) = true) as -> by (by destruct items).
  cbn [py_get]. run_display. rewrite Hratios. cbn [default from_option id].
  assert (truthy (PyDict ratios) = true) as -> by (by destruct ratios).
  cbn [py_len py_items].
  erewrite bind_return by (run_display; apply render_metrics_eq).
  run_display. close_page.
Qed.

(** X11: the three fallbacks of the report.  For a stored non-empty [dict]
    whose ["key_ratios"] is missing or tests false, the warning of line 191
    takes the place of the columns; a missing summary and missing extracted
    data are replaced by their placeholders. *)
Theorem report_without_ratios_shows_warning items w :
  session_state w !! "analysis_result" = Some (PyDict items) ->
  items <> [] ->
  truthy (default (PyDict []) (dict_lookup items "key_ratios")) = false ->
  display_results env w =
  (Return tt,
   with_page
     (page w ++
      [ Markdown "---" false;
        Header "Financial Analysis Report";
        Subheader "📝 Executive Summary";
        InfoBox (default (PyStr "Summary could not be generated.")
                         (dict_lookup items "executive_summary"));
        Subheader "📊 Key Financial Ratios";
        WarningBox "No key ratios could be calculated from the document.";
        EnterExpander "🔬 View Raw Extracted Data (JSON)";
        Json (default (PyDict [("error", PyStr "No data extracted.")])
                      (dict_lookup items "extracted_data"));
        ExitContainer ]) w).
Proof.
  intros Hres Hne Hfalse. open_report Hres.
  assert (truthy (PyDict items) = true) as -> by (by destruct items).
  cbn [py_get]. run_display. cbn [default] in Hfalse. rewrite Hfalse.
  run_display. close_page.
Qed.

Lemma bind_raise {A B} (m : M A) (k : A -> M B) w e w' :
  m w = (Raise e, w') -> bind m k w = (Raise e, w').
Proof. unfold bind. by intros ->. Qed.

Lemma display_results_returns r w :
  session_state w !! "analysis_result" = Some r ->
  displayable r = true ->
  exists es, display_results env w = (Return tt, with_page (page w ++ es) w).
Proof.
  intros Hres Hok.
  destruct (truthy r) eqn:Htruthy.
  2:{ exists []. open_report Hres.
      rewrite Htruthy. unfold ret. by rewrite app_nil_r, with_page_id. }
  unfold displayable in Hok. rewrite Htruthy in Hok. cbn [negb orb] in Hok.
  destruct r as [| | | | | |items]; try discriminate Hok.
  destruct (dict_lookup items "key_ratios") as [key_ratios|] eqn:Hratios;
    [destruct (truthy key_ratios) eqn:Hk|].
  - cbn [negb orb] in Hok. destruct key_ratios as [| | | | | |ratios]; try discriminate Hok.
    eexists. open_report Hres. rewrite Htruthy. cbn [py_get]. run_display.
    rewrite Hratios. cbn [default from_option id]. rewrite Hk. cbn [py_len py_items].
    erewrite bind_return by (run_display; apply render_metrics_eq).
    run_display. close_page.
  - eexists. open_report Hres. rewrite Htruthy. cbn [py_get]. run_display.
    rewrite Hratios. cbn [default from_option id]. rewrite Hk.
    run_display. close_page.
  - eexists. open_report Hres. rewrite Htruthy. cbn [py_get]. run_display.
    rewrite Hratios. cbn [default from_option id truthy].
    run_display. close_page.
Qed.

Ltac close_raise :=
  unfold lift, raise; stores_simpl; cbn [with_page page];
  rewrite <- ?app_assoc; cbn [app]; reflexivity.

Lemma display_results_raises r w :
  session_state w !! "analysis_result" = Some r ->
  displayable r = false ->
  exists e es,
    display_results env w = (Raise e, with_page (page w ++ es) w) /\
    (exc_class e = AttributeError \/ exc_class e = TypeError).
Proof.
  intros Hres Hbad. unfold displayable in Hbad.
  destruct (truthy r) eqn:Htruthy; [|discriminate Hbad]. cbn [negb orb] in Hbad.
  destruct r as [| |z|x|s|l|items];
    try (eexists _, _; split;
         [open_report Hres; rewrite Htruthy; run_display;
          apply bind_raise; cbn [py_get]; close_raise|by left]).
  destruct (dict_lookup items "key_ratios") as [key_ratios|] eqn:Hratios;
    [|discriminate Hbad].
  destruct (truthy key_ratios) eqn:Hk; [|discriminate Hbad]. cbn [negb orb] in Hbad.
  destruct key_ratios as [| |z|x|s|l|ratios];
    try discriminate Hbad; try (cbn in Hk; discriminate Hk);
    eexists _, _; (split; [|shelve]);
    open_report Hres; rewrite Htruthy; cbn [py_get]; run_display;
    rewrite Hratios; cbn [default from_option id]; rewrite Hk;
    apply bind_raise; cbn [py_len]; run_display.
  - apply bind_raise. close_raise.
  - apply bind_raise. close_raise.
  - apply bind_raise. close_raise.
  - apply bind_raise. cbn [py_items]. close_raise.
  - apply bind_raise. cbn [py_items]. close_raise.
  Unshelve. all: cbn; auto.
Qed.

(** With a key, an execution is lines 156-170 followed by the report and
    the two closing lines. *)
Lemma rerun_report key uploaded_file clicked w :
  configured_key env = Some key ->
  rerun env uploaded_file clicked w =
  (display_results env ;;
   render (Markdown "---" false) ;;
   render (Markdown "Powered by **Google Gemini 1.5 Flash** and **Streamlit**." false))
    (after_upload_section env uploaded_file clicked (world_before_upload key w)).
Proof.
  intros H. unfold rerun, app.
  do 2 (erewrite (bind_return (render _)) by reflexivity).
  erewrite (bind_return (configure_gemini env)) by (by apply configure_gemini_ok).
  do 2 (erewrite (bind_return (render _)) by reflexivity).
  erewrite (bind_return init_session_state) by apply init_session_state_eq.
  erewrite (bind_return (render _)) by reflexivity.
  match goal with |- context [bind _ _ ?w1] =>
    change w1 with (world_before_upload key w) end.
  erewrite bind_return; [done|].
  apply upload_section_eq. cbn. rewrite init_keys_lookup_name. by eexists.
Qed.

Lemma result_key_present key uploaded_file clicked w :
  configured_key env = Some key ->
  let w2 := after_upload_section env uploaded_file clicked (world_before_upload key w) in
  session_state w2 !! "analysis_result" = Some (stored_result w2).
Proof.
  intros Hkey. cbn zeta.
  assert (is_Some (session_state
            (after_upload_section env uploaded_file clicked (world_before_upload key w))
            !! "analysis_result")) as [r Hr].
  { destruct uploaded_file as [f|].
    - destruct (session_after_upload env key f clicked w Hkey) as [_ Hpresent].
      destruct (step_configured env key (Some f, clicked) w Hkey) as (es & Hstep).
      cbn zeta in *. by rewrite Hstep in Hpresent.
    - cbn [after_upload_section]. stores_simpl. rewrite init_keys_lookup_result. eauto. }
  unfold stored_result. by rewrite Hr.
Qed.

(** X12: how an execution ends.  With the key configured an execution never
    stops early and nothing before the report raises; it ends normally
    exactly when the result stored by then is displayable, and otherwise the
    report raises an [AttributeError] or a [TypeError].  A JSON reply that
    is not an object, or whose ["key_ratios"] is a non-empty string or list
    or a non-zero number, is such a result. *)
Theorem execution_ends_by_the_stored_result key uploaded_file clicked w :
  configured_key env = Some key ->
  let o := fst (rerun env uploaded_file clicked w) in
  let w' := step env w (uploaded_file, clicked) in
  (displayable (stored_result w') = true -> o = Return tt) /\
  (displayable (stored_result w') = false ->
   exists e, o = Raise e /\ (exc_class e = AttributeError \/ exc_class e = TypeError)).
Proof.
  intros Hkey. cbn zeta. unfold step. cbn [fst snd].
  rewrite (rerun_report key uploaded_file clicked w Hkey).
  pose proof (result_key_present key uploaded_file clicked w Hkey) as Hres. cbn zeta in Hres.
  set (w2 := after_upload_section env uploaded_file clicked (world_before_upload key w)) in *.
  destruct (displayable (stored_result w2)) eqn:Hd.
  - destruct (display_results_returns _ w2 Hres Hd) as (es & Hdisplay).
    erewrite bind_return by apply Hdisplay.
    do 1 (erewrite (bind_return (render _)) by reflexivity).
    unfold render. cbn [fst snd]. unfold stored_result. stores_simpl.
    fold (stored_result w2). rewrite Hd. split; [done|discriminate].
  - destruct (display_results_raises _ w2 Hres Hd) as (e & es & Hdisplay & Hclass).
    erewrite bind_raise by apply Hdisplay.
    cbn [fst snd]. unfold stored_result. stores_simpl.
    fold (stored_result w2). rewrite Hd. split; [discriminate|]. eauto.
Qed.

(** ** The prompt *)

Lemma string_app_length (a b : string) : len (a +:+ b) = len a + len b.
Proof.
  induction a as [|x a IH]; [done|].
  unfold String.append; fold String.append. cbn [len].
  destruct (is_continuation_byte x); by rewrite IH.
Qed.

Lemma string_app_bytes (a b : string) :
  String.length (a +:+ b) = String.length a + String.length b.
Proof.
  induction a as [|x a IH]; [done|].
  unfold String.append; fold String.append. cbn. by rewrite IH.
Qed.

Lemma string_app_inv_tail (a b c : string) : a +:+ c = b +:+ c -> a = b.
Proof.
  revert b. induction a as [|x a IH]; intros [|y b] H.
  - done.
  - apply (f_equal String.length) in H. rewrite !string_app_bytes in H. cbn in H. lia.
  - apply (f_equal String.length) in H. rewrite !string_app_bytes in H. cbn in H. lia.
  - unfold String.append in H; fold String.append in H.
    injection H as -> H. f_equal. by apply IH.
Qed.

(** X13: the prompt determines the text: different texts give different
    prompts, and the prompt is longer than the text by the length of the
    template (lengths in code points). *)
Theorem prompt_determines_text text1 text2 :
  text1 <> text2 ->
  build_prompt text1 <> build_prompt text2 /\
  len (build_prompt text1) = len prompt_head + len text1 + len prompt_tail.
Proof.
  intros Hne. unfold build_prompt. split.
  - intros H. apply Hne. apply String.app_inj in H. by apply string_app_inv_tail in H.
  - rewrite !string_app_length. lia.
Qed.

End Executions.

(** ** The sample session, continued *)

Lemma extraction_runs_once_per_file_witness :
  let w2 := session sample_env [(Some globex_report, true)]
              (step sample_env initial_world (Some acme_report, true)) in
  pdf_opens (step sample_env w2 (Some acme_report, true)) = pdf_opens w2.
Proof.
  apply (extraction_runs_once_per_file sample_env "sample-key" acme_report
           [(Some globex_report, true)] true initial_world).
  reflexivity.
Defined.

Lemma one_extraction_per_store_entry_witness :
  length (pdf_opens acme_analysed) = size (extract_cache acme_analysed).
Proof.
  apply (one_extraction_per_store_entry sample_env acme_analysed).
  apply reachable_acme_analysed.
Defined.

Lemma sufficient_text_reaches_analysis_witness :
  exists value messages,
    analysis_cache (step sample_env initial_world (Some acme_report, true)) !! [] =
      Some (value, messages) /\
    session_state (step sample_env initial_world (Some acme_report, true))
      !! "analysis_result" = Some value /\
    (forall e, e ∈ messages ->
       e ∈ page (step sample_env initial_world (Some acme_report, true))).
Proof.
  apply (sufficient_text_reaches_analysis sample_env "sample-key" acme_report acme_text
           initial_world).
  - apply reachable_initial.
  - reflexivity.
  - vm_compute. reflexivity.
  - vm_compute. lia.
Defined.

Lemma first_analysis_stores_parsed_reply_witness :
  let w' := step sample_env initial_world (Some acme_report, true) in
  remote_calls w' = remote_calls initial_world ++ [build_prompt acme_text] /\
  session_state w' !! "analysis_result" = Some acme_analysis /\
  analysis_cache w' !! [] = Some (acme_analysis, []).
Proof.
  apply (first_analysis_stores_parsed_reply sample_env "sample-key" acme_report acme_text
           acme_reply acme_analysis initial_world).
  - apply reachable_initial.
  - reflexivity.
  - reflexivity.
  - vm_compute. reflexivity.
  - vm_compute. lia.
  - vm_compute. reflexivity.
  - vm_compute. reflexivity.
Defined.

Lemma failed_extraction_ends_the_click_witness :
  let w' := step sample_env acme_analysed (Some truncated_report, true) in
  extraction_error unexpected_eof ∈ page w' /\ insufficient_text_error ∈ page w' /\
  remote_calls w' = remote_calls acme_analysed /\
  session_state w' !! "analysis_result" = Some PyNone.
Proof.
  apply (failed_extraction_ends_the_click sample_env "sample-key" truncated_report
           unexpected_eof acme_analysed).
  - apply reachable_acme_analysed.
  - reflexivity.
  - apply (page_failure _ _ _ [Some "Revenue: 100"] []). reflexivity.
Defined.

Lemma failed_analysis_is_never_retried_witness :
  let w1 := step sample_env initial_world (Some initech_report, true) in
  let w2 := session sample_env [(Some acme_report, false)] w1 in
  let w3 := step sample_env w2 (Some acme_report, true) in
  remote_calls w2 = remote_calls initial_world ++ [build_prompt initech_text] /\
  remote_calls w3 = remote_calls w2 /\
  analysis_error service_unavailable ∈ page w3 /\
  session_state w3 !! "analysis_result" = Some PyNone.
Proof.
  destruct (failed_analysis_is_never_retried sample_env (Some initech_report, true)
              initial_world (build_prompt initech_text) service_unavailable
              [(Some acme_report, false)]) as [Hcalls Hlater].
  - apply reachable_initial.
  - vm_compute. reflexivity.
  - apply service_error. vm_compute. reflexivity.
  - split; [exact Hcalls|]. apply (Hlater acme_report acme_text).
    + vm_compute. reflexivity.
    + vm_compute. lia.
Defined.

Lemma stored_result_is_the_cached_analysis_witness :
  stored_result acme_analysed = PyNone \/
  exists messages,
    analysis_cache acme_analysed !! [] = Some (stored_result acme_analysed, messages).
Proof.
  apply (stored_result_is_the_cached_analysis sample_env acme_analysed).
  apply reachable_acme_analysed.
Defined.

Lemma report_renders_each_ratio_in_its_column_witness :
  display_results sample_env ratios_world =
  (Return tt,
   with_page
     ([ Markdown "---" false;
        Header "Financial Analysis Report";
        Subheader "📝 Executive Summary";
        InfoBox (PyStr "ACME is profitable.");
        Subheader "📊 Key Financial Ratios";
        Columns 4;
        EnterColumn 0; Metric "Current Ratio" "2.00"; ExitContainer;
        EnterColumn 1; Metric "Debt-to-Equity Ratio" "2"; ExitContainer;
        EnterColumn 2; Metric "Net Profit Margin" "None"; ExitContainer;
        EnterColumn 3; Metric "Return on Equity (ROE)" "['N/A', True]"; ExitContainer;
        EnterExpander "🔬 View Raw Extracted Data (JSON)";
        Json (PyDict [("error", PyStr "No data extracted.")]);
        ExitContainer ]) ratios_world).
Proof.
  apply (report_renders_each_ratio_in_its_column sample_env
           [("executive_summary", PyStr "ACME is profitable.");
            ("key_ratios", PyDict sample_ratios)] sample_ratios ratios_world).
  - reflexivity.
  - reflexivity.
  - intros H. discriminate H.
Defined.

Lemma report_without_ratios_shows_warning_witness :
  display_results sample_env acme_analysed =
  (Return tt,
   with_page
     (page acme_analysed ++
      [ Markdown "---" false;
        Header "Financial Analysis Report";
        Subheader "📝 Executive Summary";
        InfoBox (PyStr "ACME is profitable.");
        Subheader "📊 Key Financial Ratios";
        WarningBox "No key ratios could be calculated from the document.";
        EnterExpander "🔬 View Raw Extracted Data (JSON)";
        Json (PyDict [("error", PyStr "No data extracted.")]);
        ExitContainer ]) acme_analysed).
Proof.
  apply (report_without_ratios_shows_warning sample_env
           [("executive_summary", PyStr "ACME is profitable.")] acme_analysed).
  - vm_compute. reflexivity.
  - intros H. discriminate H.
  - reflexivity.
Defined.

(** A reply that is a JSON array is stored and makes the report raise. *)
Lemma execution_ends_by_the_stored_result_witness :
  stored_result (step array_env initial_world (Some acme_report, true)) = PyList [PyInt 1] /\
  exists e,
    fst (rerun array_env (Some acme_report) true initial_world) = Raise e /\
    (exc_class e = AttributeError \/ exc_class e = TypeError).
Proof.
  split; [vm_compute; reflexivity|].
  apply (execution_ends_by_the_stored_result array_env "sample-key" (Some acme_report)
           true initial_world).
  - reflexivity.
  - vm_compute. reflexivity.
Defined.

Lemma prompt_determines_text_witness :
  build_prompt acme_text <> build_prompt globex_text /\
  len (build_prompt acme_text) = len prompt_head + len acme_text + len prompt_tail.
Proof.
  apply (prompt_determines_text acme_text globex_text).
  intros H. discriminate H.
Defined.
